(** * ToxicAPI: the classification and feedback handlers of [app.py]

    A shallow embedding of the request handlers of the service:
    [classify_comment] / [classify_text], [submit_feedback],
    [get_feedback_stats] and [view_feedback], together with the part of the
    collaborators they rely on (the model runtime, the embedded SQL store).

    - Python floats are IEEE binary64 values; they are modelled by the
      Standard Library's [spec_float], whose comparison has the IEEE
      behaviour on NaN (every ordered comparison with NaN is false).
    - A Python [dict] is an insertion-ordered association list.
    - [raise HTTPException(code, detail=...)] is the [Raise] outcome of a
      handler; every handler is a function from the store to an outcome and
      a store. *)

From Stdlib Require Import ZArith List String Ascii Bool Lia Sorted.
From Stdlib Require Import Floats.SpecFloat.
Import ListNotations.

#[local] Open Scope string_scope.
#[local] Open Scope Z_scope.

(* ------------------------------------------------------------------ *)
(** ** Outcomes of a handler *)
(* ------------------------------------------------------------------ *)

(** [HTTPException(status_code, detail)]. *)
Record HTTPException : Type := mkHTTPException
  { status_code : Z;
    detail : string }.

(** A Python exception caught by [except Exception as e], kept as [str(e)]. *)
Definition exn : Type := string.

Inductive outcome (A : Type) : Type :=
| Ok (a : A)
| Raise (e : HTTPException).

Arguments Ok {A} a.
Arguments Raise {A} e.

(** What happens inside a [try] block: a value, or an exception. *)
Inductive attempt (A : Type) : Type :=
| Done (a : A)
| Throw (e : exn).

Arguments Done {A} a.
Arguments Throw {A} e.

Definition bind {A B : Type} (m : attempt A) (k : A -> attempt B) : attempt B :=
  match m with
  | Done a => k a
  | Throw e => Throw e
  end.

Notation "x <- m ;; k" := (bind m (fun x => k))
  (at level 61, m at next level, right associativity).

(** [try: ... except Exception as e: raise HTTPException(code, prefix + str(e))]. *)
Definition try_except {A : Type} (body : attempt A) (code : Z) (prefix : string)
  : outcome A :=
  match body with
  | Done a => Ok a
  | Throw e => Raise (mkHTTPException code (prefix ++ e))
  end.

(* ------------------------------------------------------------------ *)
(** ** Floats *)
(* ------------------------------------------------------------------ *)

Definition float : Type := spec_float.

(** Python's [a >= b] and [a < b] on floats. *)
Definition float_ge (a b : float) : bool := SFleb b a.
Definition float_lt (a b : float) : bool := SFltb a b.

Definition float_is_nan (a : float) : bool :=
  match a with
  | S754_nan => true
  | _ => false
  end.

Definition float_nan : float := S754_nan.
Definition float_zero : float := S754_zero false.
(** [0.5] and [1.0] as binary64 values: 53-bit mantissa, [m * 2^e]. *)
Definition float_half : float := S754_finite false 4503599627370496 (-53).
Definition float_one : float := S754_finite false 4503599627370496 (-52).

(** Membership in the closed interval [[0,1]]. *)
Definition in_unit_interval (p : float) : bool :=
  float_ge p float_zero && float_ge float_one p.

(* ------------------------------------------------------------------ *)
(** ** Configuration *)
(* ------------------------------------------------------------------ *)

Definition LABELS : list string :=
  ["toxic"; "severe_toxic"; "obscene"; "threat"; "insult"; "identity_hate"].

(** [x in xs] on a list of strings. *)
Definition str_in (x : string) (xs : list string) : bool :=
  existsb (String.eqb x) xs.

(* ------------------------------------------------------------------ *)
(** ** Python values used by [classify_comment] *)
(* ------------------------------------------------------------------ *)

(** An insertion-ordered dictionary from label names to floats. *)
Definition dict : Type := list (string * float).

(** [d[k] = v]: overwrite in place when the key is present, append otherwise. *)
Fixpoint dict_set (d : dict) (k : string) (v : float) : dict :=
  match d with
  | [] => [(k, v)]
  | (k', v') :: rest =>
      if String.eqb k' k then (k', v) :: rest else (k', v') :: dict_set rest k v
  end.

Definition dict_keys (d : dict) : list string := map fst d.
Definition dict_values (d : dict) : list float := map snd d.
Definition dict_items (d : dict) : list (string * float) := d.

(** [d[k]]: the value under the key, if the key is there. *)
Fixpoint dict_get (d : dict) (k : string) : option float :=
  match d with
  | [] => None
  | (k', v) :: rest => if String.eqb k' k then Some v else dict_get rest k
  end.

(** The result of [tensor.squeeze().tolist()] on the logits of one comment:
    the logits have shape [[1, n]]; [squeeze] drops every dimension of size
    one, so a single-label model yields a bare float and any other a list. *)
Inductive pyvalue : Type :=
| PyFloat (x : float)
| PyList (xs : list float).

Definition squeeze_tolist (row : list float) : pyvalue :=
  match row with
  | [x] => PyFloat x
  | _ => PyList row
  end.

(** [probs[i]] for a non-negative index. *)
Definition getitem (probs : pyvalue) (i : nat) : attempt float :=
  match probs with
  | PyFloat _ => Throw "'float' object is not subscriptable"
  | PyList xs =>
      match nth_error xs i with
      | Some x => Done x
      | None => Throw "list index out of range"
      end
  end.

(** [{label: float(probs[i]) for i, label in enumerate(labels)}], with the
    enumeration started at [i] and the dictionary built so far in [acc]. *)
Fixpoint dict_comprehension (probs : pyvalue) (labels : list string) (i : nat)
    (acc : dict) : attempt dict :=
  match labels with
  | [] => Done acc
  | label :: rest =>
      p <- getitem probs i ;;
      dict_comprehension probs rest (S i) (dict_set acc label p)
  end.

(** [[label for label, prob in predictions.items() if prob >= threshold]]. *)
Definition predicted_labels (predictions : dict) (threshold : float)
  : list string :=
  map fst (filter (fun item => float_ge (snd item) threshold)
                  (dict_items predictions)).

(** [xs or ys] on lists: the empty list is false. *)
Definition py_or {A : Type} (xs ys : list A) : list A :=
  match xs with
  | [] => ys
  | _ :: _ => xs
  end.

(** [ClassificationResponse]. *)
Record ClassificationResponse : Type := mkClassificationResponse
  { labels : list string;
    probabilities : dict }.

(** [ClassificationRequest]. *)
Record ClassificationRequest : Type := mkClassificationRequest
  { request_comment : string }.

(* ------------------------------------------------------------------ *)
(** ** Core logic: [classify_comment] *)
(* ------------------------------------------------------------------ *)

Section Classifier.

(** The model runtime, external to the repository.  [run_model comment] is
    the logits the model returns for the tokenized comment (one row, the
    batch holding a single comment), or the exception raised on the way.
    [sigmoid] is [torch.sigmoid] on one element. *)
Variable run_model : string -> attempt (list float).
Variable sigmoid : float -> float.

Definition classify_comment (comment : string) (threshold : float)
  : outcome ClassificationResponse :=
  try_except
    (logits <- run_model comment ;;
     let probs := squeeze_tolist (map sigmoid logits) in
     predictions <- dict_comprehension probs LABELS 0 [] ;;
     Done {| labels := py_or (predicted_labels predictions threshold) ["none"];
             probabilities := predictions |})
    500 "Classification error: ".

End Classifier.

(** The default of the [threshold] parameter. *)
Definition default_threshold : float := float_half.

(** Collaborators to run the classifier on in examples: a model that answers
    every comment with six zero logits, and a stand-in for the sigmoid that
    is exact at zero, at the infinities and at NaN and saturated elsewhere. *)
Definition zero_logits_model : string -> attempt (list float) :=
  fun _ => Done (repeat float_zero 6).

(** A model whose six logits are negative, zero, NaN, positive, zero and
    negative. *)
Definition mixed_logits_model : string -> attempt (list float) :=
  fun _ => Done [S754_finite true 1 0; float_zero; float_nan;
                 S754_finite false 1 0; float_zero; S754_finite true 1 0].

Definition coarse_sigmoid (x : float) : float :=
  match x with
  | S754_zero _ => float_half
  | S754_infinity false => float_one
  | S754_infinity true => float_zero
  | S754_nan => float_nan
  | S754_finite false _ _ => float_one
  | S754_finite true _ _ => float_zero
  end.

(* ------------------------------------------------------------------ *)
(** ** The feedback table and the embedded store *)
(* ------------------------------------------------------------------ *)

(** [FeedbackRequest]. *)
Record FeedbackRequest : Type := mkFeedbackRequest
  { feedback_comment : string;
    expected_labels : list string }.

(** One row of the table [feedback], column by column.  The label columns
    are [INTEGER]; the timestamp is kept as the text the store holds for it.
    [view_feedback] returns [dict(row)], which has the same nine fields. *)
Record FeedbackRow : Type := mkFeedbackRow
  { id : Z;
    comment : string;
    toxic : Z;
    severe_toxic : Z;
    obscene : Z;
    threat : Z;
    insult : Z;
    identity_hate : Z;
    timestamp : string }.

(** The database file: the rows of [feedback] in the order a table scan
    meets them (ascending rowid, see [wf_db]), and the counter that
    [AUTOINCREMENT] keeps of the largest rowid ever handed out. *)
Record Database : Type := mkDatabase
  { feedback : list FeedbackRow;
    sqlite_sequence : Z }.

(** A database whose table has just been created. *)
Definition empty_db : Database :=
  {| feedback := []; sqlite_sequence := 0 |}.

(** [CREATE TABLE IF NOT EXISTS feedback ...] at start-up: a table that is
    there is kept, one that is missing ([None]) is created empty. *)
Definition init_db (file : option Database) : Database :=
  match file with
  | Some db => db
  | None => empty_db
  end.

(** Rows are stored by rowid, which is the primary key [id]: a scan meets
    them in strictly ascending [id]. *)
Definition ascending_ids (rows : list FeedbackRow) : Prop :=
  StronglySorted Z.lt (map id rows).

Definition wf_db (db : Database) : Prop := ascending_ids (feedback db).

Definition INT64_MIN : Z := -9223372036854775808.
Definition INT64_MAX : Z := 9223372036854775807.

(** Binding a Python [int] to a [?] placeholder: Python integers are
    unbounded, the store's are signed 64-bit; the [sqlite3] module converts
    the value and raises [OverflowError] when it does not fit.  The handlers
    catch it with every other exception of the [try] block. *)
Definition bind_int (v : Z) : attempt Z :=
  if (INT64_MIN <=? v) && (v <=? INT64_MAX) then Done v
  else Throw "Python int too large to convert to SQLite INTEGER".

(** Opening the connection and running the statement can fail for reasons
    that do not depend on the bound values (I/O error, locked or missing
    file or table, full disk).  [io] says whether the call at hand meets such
    a failure, and with which message. *)
Definition connect (io : option exn) : attempt unit :=
  match io with
  | Some e => Throw e
  | None => Done tt
  end.

(** [with sqlite3.connect(DB_NAME) as conn: body]: the changes of [body] are
    committed when it ends normally and rolled back when it raises. *)
Definition with_connection {A : Type} (io : option exn)
    (body : Database -> attempt (A * Database)) (db : Database)
  : attempt A * Database :=
  match (_ <- connect io ;; body db) with
  | Done (a, db') => (Done a, db')
  | Throw e => (Throw e, db)
  end.

Definition max_rowid (rows : list FeedbackRow) : Z :=
  fold_right (fun r m => Z.max (id r) m) 0 rows.

(** The rowid an [AUTOINCREMENT] key has for the next row: one more than the
    largest rowid ever used.  Rowids are signed 64-bit integers, and the
    store hands this one out only when it fits (see [insert_feedback]). *)
Definition next_rowid (db : Database) : Z :=
  Z.max (sqlite_sequence db) (max_rowid (feedback db)) + 1.

(** [INSERT INTO feedback (comment, toxic, ..., identity_hate, timestamp)
    VALUES (?, ?, ?, ?, ?, ?, ?, ?)] with the comment, the unpacked
    [label_values] and the clock reading as parameters: eight values are
    expected, so six label values (which is what the six [LABELS] give).
    Once the largest rowid, 2^63 - 1, has been used, an [AUTOINCREMENT] key
    has no rowid left and the insertion fails. *)
Definition insert_feedback (c : string) (label_values : list Z) (now : string)
    (db : Database) : attempt (unit * Database) :=
  match label_values with
  | [v_toxic; v_severe_toxic; v_obscene; v_threat; v_insult; v_identity_hate] =>
      let rowid := next_rowid db in
      if rowid <=? INT64_MAX then
        Done (tt,
              {| feedback :=
                   (feedback db ++
                   [ {| id := rowid;
                        comment := c;
                        toxic := v_toxic;
                        severe_toxic := v_severe_toxic;
                        obscene := v_obscene;
                        threat := v_threat;
                        insult := v_insult;
                        identity_hate := v_identity_hate;
                        timestamp := now |} ])%list;
                 sqlite_sequence := rowid |})
      else Throw "database or disk is full"
  | _ => Throw "Incorrect number of bindings supplied"
  end.

(** [SELECT COUNT( * ) FROM feedback]. *)
Definition select_count (db : Database) : attempt (Z * Database) :=
  Done (Z.of_nat (List.length (feedback db)), db).

(** [LIMIT l OFFSET o] on the rows of a scan: a negative [OFFSET] skips
    nothing, a negative [LIMIT] puts no bound on the number of rows. *)
Definition limit_offset {A : Type} (l o : Z) (rows : list A) : list A :=
  let rest := if o <? 0 then rows else skipn (Z.to_nat o) rows in
  if l <? 0 then rest else firstn (Z.to_nat l) rest.

(** [SELECT id, comment, ..., timestamp FROM feedback LIMIT ? OFFSET ?] with
    the parameters [(limit, offset)]. *)
Definition select_page (limit offset : Z) (db : Database)
  : attempt (list FeedbackRow * Database) :=
  l <- bind_int limit ;;
  o <- bind_int offset ;;
  Done (limit_offset l o (feedback db), db).

(* ------------------------------------------------------------------ *)
(** ** API endpoints *)
(* ------------------------------------------------------------------ *)

(** A handler reads and possibly changes the database, and ends with a
    response or an [HTTPException]. *)
Definition handler (A : Type) : Type := Database -> outcome A * Database.

(** [label not in LABELS and label != 'none']. *)
Definition is_invalid_label (label : string) : bool :=
  negb (str_in label LABELS) && negb (String.eqb label "none").

(** [POST /submit-feedback]. [now] is the value of [datetime.now()]. *)
Definition submit_feedback (io : option exn) (now : string)
    (fb : FeedbackRequest) : handler string :=
  fun db =>
    let invalid_labels := filter is_invalid_label (expected_labels fb) in
    match invalid_labels with
    | _ :: _ =>
        (Raise (mkHTTPException 400
                  ("Invalid labels: " ++ String.concat ", " invalid_labels)),
         db)
    | [] =>
        let label_values :=
          map (fun label => if str_in label (expected_labels fb) then 1 else 0)
              LABELS in
        let (r, db') :=
          with_connection io
            (insert_feedback (feedback_comment fb) label_values now) db in
        (try_except (_ <- r ;; Done "Feedback stored successfully")
                    500 "Database error: ",
         db')
    end.

(** The row a submission that is stored adds: the next rowid, the comment,
    the six entries of [label_values] and the clock reading. *)
Definition submitted_row (now : string) (fb : FeedbackRequest) (db : Database)
  : FeedbackRow :=
  let flag name := if str_in name (expected_labels fb) then 1 else 0 in
  {| id := next_rowid db;
     comment := feedback_comment fb;
     toxic := flag "toxic";
     severe_toxic := flag "severe_toxic";
     obscene := flag "obscene";
     threat := flag "threat";
     insult := flag "insult";
     identity_hate := flag "identity_hate";
     timestamp := now |}.

(** [GET /feedback-stats]; the response is the value of
    [total_feedback_entries]. *)
Definition get_feedback_stats (io : option exn) : handler Z :=
  fun db =>
    let (r, db') := with_connection io select_count db in
    (try_except r 500 "Database error: ", db').

(** [GET /view-feedback]. *)
Definition view_feedback (io : option exn) (limit offset : Z)
  : handler (list FeedbackRow) :=
  fun db =>
    let (r, db') := with_connection io (select_page limit offset) db in
    (try_except r 500 "Failed to retrieve feedback: ", db').

(** The arguments [view_feedback] takes when the query gives none. *)
Definition default_limit : Z := 100.
Definition default_offset : Z := 0.

(** The value a row holds in the label column called [name]. *)
Definition label_column (name : string) (r : FeedbackRow) : option Z :=
  if String.eqb name "toxic" then Some (toxic r)
  else if String.eqb name "severe_toxic" then Some (severe_toxic r)
  else if String.eqb name "obscene" then Some (obscene r)
  else if String.eqb name "threat" then Some (threat r)
  else if String.eqb name "insult" then Some (insult r)
  else if String.eqb name "identity_hate" then Some (identity_hate r)
  else None.

(** Submissions one after the other, each with its clock reading and with
    the store working; the outcomes are dropped. *)
Definition submit_all (subs : list (string * FeedbackRequest)) (db : Database)
  : Database :=
  fold_left (fun d s => snd (submit_feedback None (fst s) (snd s) d)) subs db.

(** The requests of the service and the responses to them. *)
Inductive request : Type :=
| GetRoot
| PostClassify (r : ClassificationRequest)
| PostSubmitFeedback (fb : FeedbackRequest)
| GetFeedbackStats
| GetViewFeedback (limit offset : Z).

Inductive response : Type :=
| RedirectResponse (url : string)
| Classification (c : ClassificationResponse)
| Message (m : string)
| TotalFeedbackEntries (n : Z)
| FeedbackEntries (rows : list FeedbackRow).

(** What the surroundings contribute to one request: whether the store
    fails, and the reading of the clock. *)
Record environment : Type := mkEnvironment
  { io_failure : option exn;
    clock : string }.

Definition map_outcome {A B : Type} (f : A -> B) (r : outcome A * Database)
  : outcome B * Database :=
  match r with
  | (Ok a, db) => (Ok (f a), db)
  | (Raise e, db) => (Raise e, db)
  end.

Section Service.

Variable run_model : string -> attempt (list float).
Variable sigmoid : float -> float.

(** [POST /classify]: [classify_comment(request.comment)]. *)
Definition classify_text (r : ClassificationRequest) : handler ClassificationResponse :=
  fun db =>
    (classify_comment run_model sigmoid (request_comment r) default_threshold, db).

Definition redirect_to_docs : handler string :=
  fun db => (Ok "/docs", db).

Definition handle (env : environment) (req : request) : handler response :=
  fun db =>
    match req with
    | GetRoot => map_outcome RedirectResponse (redirect_to_docs db)
    | PostClassify r => map_outcome Classification (classify_text r db)
    | PostSubmitFeedback fb =>
        map_outcome Message (submit_feedback (io_failure env) (clock env) fb db)
    | GetFeedbackStats =>
        map_outcome TotalFeedbackEntries (get_feedback_stats (io_failure env) db)
    | GetViewFeedback limit offset =>
        map_outcome FeedbackEntries
                    (view_feedback (io_failure env) limit offset db)
    end.

(** The database after a sequence of requests, each in its environment. *)
Fixpoint run (trace : list (environment * request)) (db : Database) : Database :=
  match trace with
  | [] => db
  | (env, req) :: rest => run rest (snd (handle env req db))
  end.

(** The responses to a sequence of requests, in their order. *)
Fixpoint responses (trace : list (environment * request)) (db : Database)
  : list (outcome response) :=
  match trace with
  | [] => []
  | (env, req) :: rest =>
      fst (handle env req db) :: responses rest (snd (handle env req db))
  end.

End Service.

(** The response of a submission that was stored. *)
Definition is_stored (r : outcome response) : bool :=
  match r with
  | Ok (Message _) => true
  | _ => false
  end.

(* ------------------------------------------------------------------ *)
(** ** The collaborators call by call *)
(* ------------------------------------------------------------------ *)

(** The handlers once more, with the calls they make to the model and to
    the store written out, so that the calls can be counted: every call of
    the model takes the next answer of the model, every opening of the store
    the next answer of the store. *)




Section Calls.

(** [model_answer k] is what the model does at its call number [k], and
    [store_answer k] whether the store fails at its opening number [k]. *)
Variable model_answer : nat -> string -> attempt (list float).
Variable sigmoid : float -> float.
Variable store_answer : nat -> option exn.









End Calls.

(* ================================================================== *)
(** * Properties *)
(* ================================================================== *)

(* ------------------------------------------------------------------ *)
(** ** Comparison of floats *)
(* ------------------------------------------------------------------ *)

Lemma SFcompare_swap (a b : float) :
  SFcompare b a = option_map CompOpp (SFcompare a b).
Proof.
  destruct a as [sa | sa | | sa ma ea], b as [sb | sb | | sb mb eb];
    simpl; try reflexivity;
    try (destruct sa; reflexivity); try (destruct sb; reflexivity);
    try (destruct sa, sb; reflexivity).
  destruct sa, sb; simpl; try reflexivity;
    rewrite (Z.compare_antisym ea eb);
    destruct (ea ?= eb); simpl; try reflexivity;
    pose proof (Pos.compare_antisym ma mb) as H; unfold Pos.compare in H;
    rewrite H; try rewrite CompOpp_involutive; reflexivity.
Qed.

Lemma SFcompare_not_nan (a b : float) :
  float_is_nan a = false -> float_is_nan b = false ->
  exists c, SFcompare a b = Some c.
Proof.
  destruct a, b; simpl; intros Ha Hb; try discriminate; eauto.
Qed.

(** Away from NaN, [p >= t] fails exactly when [p < t] holds. *)
Lemma float_ge_false_lt (p t : float) :
  float_is_nan p = false -> float_is_nan t = false ->
  (float_ge p t = false <-> float_lt p t = true).
Proof.
  intros Hp Ht. unfold float_ge, float_lt, SFleb, SFltb.
  rewrite (SFcompare_swap p t).
  destruct (SFcompare_not_nan p t Hp Ht) as [c ->].
  destruct c; simpl; split; congruence.
Qed.

(** With a NaN on either side, both [>=] and [<] are false. *)
Lemma float_ge_nan_r (p : float) : float_ge p float_nan = false.
Proof. destruct p; reflexivity. Qed.

Lemma float_lt_nan_r (p : float) : float_lt p float_nan = false.
Proof. destruct p; reflexivity. Qed.

Lemma in_unit_interval_not_nan (p : float) :
  in_unit_interval p = true -> float_is_nan p = false.
Proof. destruct p; simpl; intros H; try reflexivity. discriminate H. Qed.

(* ------------------------------------------------------------------ *)
(** ** The dictionary of predictions *)
(* ------------------------------------------------------------------ *)

Lemma str_in_In (x : string) (xs : list string) :
  str_in x xs = true <-> In x xs.
Proof.
  unfold str_in. rewrite existsb_exists. split.
  - intros [y [Hy Heq]]. apply String.eqb_eq in Heq. now subst.
  - intros H. exists x. split; [assumption | apply String.eqb_refl].
Qed.

Lemma str_in_not_In (x : string) (xs : list string) :
  str_in x xs = false <-> ~ In x xs.
Proof.
  rewrite <- str_in_In. destruct (str_in x xs); split; congruence.
Qed.

Lemma LABELS_NoDup : NoDup LABELS.
Proof.
  unfold LABELS.
  repeat (constructor; [simpl; intuition discriminate |]).
  constructor.
Qed.

Lemma LABELS_length : List.length LABELS = 6%nat.
Proof. reflexivity. Qed.

Lemma none_not_in_LABELS : ~ In "none" LABELS.
Proof. apply str_in_not_In. reflexivity. Qed.

(** Setting a key that is not yet there appends the item. *)
Lemma dict_set_fresh (d : dict) (k : string) (v : float) :
  ~ In k (dict_keys d) -> dict_set d k v = (d ++ [(k, v)])%list.
Proof.
  induction d as [| [k' v'] d IH]; simpl; intros Hk; [reflexivity |].
  destruct (String.eqb k' k) eqn:E.
  - apply String.eqb_eq in E. exfalso. apply Hk. now left.
  - rewrite IH; [reflexivity | intros H; apply Hk; now right].
Qed.

(** The comprehension over distinct labels appends one item per label, in
    the order of the labels, each with the element of [probs] at the
    position of its label. *)
Lemma dict_comprehension_Done (probs : pyvalue) (names : list string) :
  forall (i : nat) (acc d : dict),
    NoDup (dict_keys acc ++ names) ->
    dict_comprehension probs names i acc = Done d ->
    exists ps : list float,
      d = (acc ++ combine names ps)%list /\
      List.length ps = List.length names /\
      forall j p, nth_error ps j = Some p -> getitem probs (i + j) = Done p.
Proof.
  induction names as [| name names IH]; simpl; intros i acc d Hnd H.
  - injection H as <-. exists []. rewrite app_nil_r. repeat split.
    intros [| j] p Hj; discriminate Hj.
  - destruct (getitem probs i) as [p0 | e] eqn:Hg; simpl in H; [| discriminate H].
    assert (Hfresh : ~ In name (dict_keys acc)).
    { intros Hin. apply NoDup_remove_2 in Hnd. apply Hnd.
      apply in_or_app. now left. }
    rewrite (dict_set_fresh acc name p0 Hfresh) in H.
    apply IH in H.
    + destruct H as [ps [-> [Hlen Hnth]]].
      exists (p0 :: ps). repeat split.
      * rewrite <- app_assoc. reflexivity.
      * simpl. now rewrite Hlen.
      * intros [| j] p Hj; simpl in Hj.
        -- injection Hj as <-. now rewrite Nat.add_0_r.
        -- rewrite Nat.add_succ_r. apply (Hnth j p Hj).
    + unfold dict_keys in *. rewrite map_app, <- app_assoc. simpl. exact Hnd.
Qed.

(** It raises only when an index is missing. *)
Lemma dict_comprehension_total (xs : list float) (names : list string) :
  forall (i : nat) (acc : dict),
    (i + List.length names <= List.length xs)%nat ->
    exists d, dict_comprehension (PyList xs) names i acc = Done d.
Proof.
  induction names as [| name names IH]; simpl; intros i acc Hlen.
  - eauto.
  - destruct (nth_error xs i) as [x |] eqn:Hx.
    + simpl. apply IH. lia.
    + apply nth_error_None in Hx. lia.
Qed.

Lemma getitem_squeeze_tolist (xs : list float) (j : nat) (p : float) :
  getitem (squeeze_tolist xs) j = Done p -> nth_error xs j = Some p.
Proof.
  unfold squeeze_tolist.
  destruct xs as [| x [| y xs]]; simpl.
  - destruct j; discriminate.
  - discriminate.
  - destruct j as [| [| j]]; simpl; try congruence.
    destruct (nth_error xs j); congruence.
Qed.

Lemma keys_combine (names : list string) (ps : list float) :
  List.length ps = List.length names -> dict_keys (combine names ps) = names.
Proof.
  revert ps. induction names as [| n names IH]; intros [| p ps] H; simpl in *;
    try discriminate; [reflexivity |].
  f_equal. apply IH. lia.
Qed.

Lemma values_combine (names : list string) (ps : list float) :
  List.length ps = List.length names -> dict_values (combine names ps) = ps.
Proof.
  revert ps. induction names as [| n names IH]; intros [| p ps] H; simpl in *;
    try discriminate; [reflexivity |].
  f_equal. apply IH. lia.
Qed.

(* ------------------------------------------------------------------ *)
(** ** [classify_comment] *)
(* ------------------------------------------------------------------ *)

Section ClassifierFacts.

Variable run_model : string -> attempt (list float).
Variable sigmoid : float -> float.

#[local] Abbreviation classify := (classify_comment run_model sigmoid).

(** What a normal return of [classify_comment] tells. *)
Lemma classify_comment_Ok (c : string) (t : float) (r : ClassificationResponse) :
  classify c t = Ok r ->
  exists logits,
    run_model c = Done logits /\
    dict_keys (probabilities r) = LABELS /\
    dict_values (probabilities r) = firstn 6 (map sigmoid logits) /\
    (6 <= List.length logits)%nat /\
    labels r = py_or (predicted_labels (probabilities r) t) ["none"].
Proof.
  unfold classify_comment. intros H.
  destruct (run_model c) as [logits | e] eqn:Hm;
    cbn [bind try_except] in H; [| discriminate H].
  destruct (dict_comprehension (squeeze_tolist (map sigmoid logits)) LABELS 0 [])
    as [d | e] eqn:Hd; cbn [bind try_except] in H; [| discriminate H].
  injection H as <-. cbn [labels probabilities].
  apply dict_comprehension_Done in Hd; [| exact LABELS_NoDup].
  destruct Hd as [ps [-> [Hlen Hnth]]]. cbn [app].
  assert (Hps : forall j p, nth_error ps j = Some p ->
                            nth_error (map sigmoid logits) j = Some p).
  { intros j p Hj. apply getitem_squeeze_tolist. apply (Hnth j p Hj). }
  assert (Hfirst : ps = firstn 6 (map sigmoid logits)).
  { apply nth_error_ext. intros j.
    destruct (nth_error ps j) as [p |] eqn:Hj.
    - rewrite nth_error_firstn.
      assert (j < 6)%nat.
      { rewrite <- LABELS_length, <- Hlen. apply nth_error_Some. congruence. }
      destruct (Nat.ltb_spec j 6); [| lia]. symmetry. now apply Hps.
    - apply nth_error_None in Hj. rewrite Hlen, LABELS_length in Hj.
      rewrite nth_error_firstn. destruct (Nat.ltb_spec j 6); [lia | reflexivity]. }
  exists logits. repeat split.
  - now apply keys_combine.
  - rewrite values_combine by assumption. exact Hfirst.
  - assert (Hsome : nth_error ps 5 <> None).
    { apply nth_error_Some. rewrite Hlen, LABELS_length. lia. }
    destruct (nth_error ps 5) as [p |] eqn:H5; [| congruence].
    apply Hps in H5.
    assert (5 < List.length (map sigmoid logits))%nat
      by (apply nth_error_Some; congruence).
    rewrite length_map in *. lia.
Qed.

(** When the model answers with at least six logits the call returns. *)
Lemma classify_comment_returns (c : string) (t : float) (logits : list float) :
  run_model c = Done logits -> (6 <= List.length logits)%nat ->
  exists r, classify c t = Ok r.
Proof.
  intros Hm Hlen. unfold classify_comment. rewrite Hm. cbn [bind].
  assert (Hsq : squeeze_tolist (map sigmoid logits) = PyList (map sigmoid logits)).
  { destruct logits as [| x [| y l]]; simpl in *; try lia; reflexivity. }
  rewrite Hsq.
  destruct (dict_comprehension_total (map sigmoid logits) LABELS 0 []) as [d Hd].
  { rewrite length_map, LABELS_length. lia. }
  rewrite Hd. cbn [bind try_except]. eauto.
Qed.

(** When the model call raises, so does [classify_comment]. *)
Lemma classify_comment_model_failure (c : string) (t : float) (cause : exn) :
  run_model c = Throw cause ->
  classify c t = Raise (mkHTTPException 500 ("Classification error: " ++ cause)).
Proof.
  intros Hm. unfold classify_comment. rewrite Hm. reflexivity.
Qed.

End ClassifierFacts.

Lemma filter_nil_Forall {A : Type} (f : A -> bool) (l : list A) :
  filter f l = [] <-> Forall (fun x => f x = false) l.
Proof.
  induction l as [| x l IH]; simpl.
  - split; [constructor | reflexivity].
  - destruct (f x) eqn:E; split; intros H.
    + discriminate H.
    + inversion H; congruence.
    + constructor; [assumption | now apply IH].
    + inversion H; subst. now apply IH.
Qed.

Lemma firstn_In {A : Type} (n : nat) (l : list A) (x : A) :
  In x (firstn n l) -> In x l.
Proof.
  intros H. rewrite <- (firstn_skipn n l). apply in_or_app. now left.
Qed.

Lemma skipn_In {A : Type} (n : nat) (l : list A) (x : A) :
  In x (skipn n l) -> In x l.
Proof.
  intros H. rewrite <- (firstn_skipn n l). apply in_or_app. now right.
Qed.

Lemma predicted_labels_nil (d : dict) (t : float) :
  predicted_labels d t = [] <->
  Forall (fun item => float_ge (snd item) t = false) d.
Proof.
  unfold predicted_labels, dict_items.
  rewrite <- filter_nil_Forall.
  destruct (filter _ d); simpl; split; congruence.
Qed.

Lemma predicted_labels_In (d : dict) (t : float) (name : string) :
  In name (predicted_labels d t) <->
  exists p, In (name, p) d /\ float_ge p t = true.
Proof.
  unfold predicted_labels, dict_items. rewrite in_map_iff. split.
  - intros [[n p] [Hn Hin]]. simpl in Hn. subst n.
    apply filter_In in Hin. simpl in Hin. exists p. exact Hin.
  - intros [p [Hin Hge]]. exists (name, p). split; [reflexivity |].
    apply filter_In. split; assumption.
Qed.

Lemma predicted_labels_keys (d : dict) (t : float) (name : string) :
  In name (predicted_labels d t) -> In name (dict_keys d).
Proof.
  intros H. apply predicted_labels_In in H. destruct H as [p [Hin _]].
  unfold dict_keys. apply in_map_iff. exists (name, p). split; [reflexivity | assumption].
Qed.

Section ClassifierClaims.

Variable run_model : string -> attempt (list float).
Variable sigmoid : float -> float.

#[local] Abbreviation classify := (classify_comment run_model sigmoid).

(** C1 (amended).  For every comment and threshold, when [classify_comment]
    returns, [labels] is the singleton [["none"]] if and only if no label
    probability is [>=] the threshold; when neither the threshold nor a
    probability is NaN this is the same as all six probabilities being
    strictly below the threshold.  Otherwise [labels] is exactly the list of
    label names whose probability is [>=] the threshold, and ["none"] never
    stands beside a label name. *)
Theorem classify_labels_threshold
    (c : string) (t : float) (r : ClassificationResponse) :
  classify c t = Ok r ->
  (labels r = ["none"] <->
   Forall (fun item => float_ge (snd item) t = false) (probabilities r))
  /\ (float_is_nan t = false ->
      Forall (fun item => float_is_nan (snd item) = false) (probabilities r) ->
      (labels r = ["none"] <->
       Forall (fun item => float_lt (snd item) t = true) (probabilities r)))
  /\ (labels r <> ["none"] ->
      labels r = predicted_labels (probabilities r) t
      /\ forall name, In name (labels r) <->
                      exists p, In (name, p) (probabilities r)
                                /\ float_ge p t = true)
  /\ (In "none" (labels r) -> labels r = ["none"]).
Proof.
  intros H. apply classify_comment_Ok in H.
  destruct H as [logits [_ [Hkeys [_ [_ Hlab]]]]].
  assert (Hnone : ~ In "none" (predicted_labels (probabilities r) t)).
  { intros Hin. apply predicted_labels_keys in Hin. rewrite Hkeys in Hin.
    exact (none_not_in_LABELS Hin). }
  assert (Hiff : labels r = ["none"] <->
                 Forall (fun item => float_ge (snd item) t = false) (probabilities r)).
  { rewrite <- predicted_labels_nil, Hlab.
    destruct (predicted_labels (probabilities r) t) as [| x xs] eqn:E; simpl.
    - split; reflexivity.
    - split; [| discriminate]. intros Heq. exfalso. apply Hnone.
      rewrite Heq. now left. }
  split; [exact Hiff |]. split; [| split].
  - intros Ht Hnan. rewrite Hiff. split; intros HF.
    + rewrite Forall_forall in *. intros item Hin.
      apply float_ge_false_lt; auto.
    + rewrite Forall_forall in *. intros item Hin.
      apply float_ge_false_lt; auto.
  - intros Hne.
    assert (Heq : labels r = predicted_labels (probabilities r) t).
    { rewrite Hlab.
      destruct (predicted_labels (probabilities r) t) eqn:E; simpl; [| reflexivity].
      exfalso. apply Hne. rewrite Hlab. reflexivity. }
    split; [exact Heq |]. intros name. rewrite Heq. apply predicted_labels_In.
  - intros Hin. rewrite Hlab in *.
    destruct (predicted_labels (probabilities r) t) eqn:E; simpl in *; [reflexivity |].
    exfalso. exact (Hnone Hin).
Qed.

Section ModelContract.

(** The sigmoid of the model runtime: it maps every number into [[0,1]],
    and NaN to NaN. *)
Hypothesis sigmoid_range :
  forall x, float_is_nan x = false -> in_unit_interval (sigmoid x) = true.
Hypothesis sigmoid_nan :
  forall x, float_is_nan x = true -> float_is_nan (sigmoid x) = true.

(** C2 (amended).  For every comment (and whatever the threshold selects),
    the [probabilities] of a result of [classify_comment] have exactly the
    six keys toxic, severe_toxic, obscene, threat, insult, identity_hate,
    each once; their values are the sigmoids of the first six logits of the
    model, and a value lies in [[0,1]] exactly when its logit is not NaN: a
    NaN logit is passed on as a NaN probability, which lies outside. *)
Theorem classify_probabilities_six_keys_unit
    (c : string) (t : float) (r : ClassificationResponse) :
  classify c t = Ok r ->
  dict_keys (probabilities r) =
    ["toxic"; "severe_toxic"; "obscene"; "threat"; "insult"; "identity_hate"]
  /\ List.length (probabilities r) = 6%nat
  /\ NoDup (dict_keys (probabilities r))
  /\ exists logits,
       run_model c = Done logits
       /\ Forall2 (fun x p => p = sigmoid x
                              /\ (in_unit_interval p = true
                                  <-> float_is_nan x = false))
                  (firstn 6 logits) (dict_values (probabilities r))
       /\ (Forall (fun x => float_is_nan x = false) (firstn 6 logits) ->
           Forall (fun p => in_unit_interval p = true)
                  (dict_values (probabilities r))).
Proof.
  intros H. apply classify_comment_Ok in H.
  destruct H as [logits [Hm [Hkeys [Hvals [_ _]]]]].
  split; [exact Hkeys |]. split; [| split].
  - rewrite <- (length_map fst). fold (dict_keys (probabilities r)).
    rewrite Hkeys. reflexivity.
  - rewrite Hkeys. exact LABELS_NoDup.
  - exists logits. split; [exact Hm |].
    rewrite Hvals, firstn_map.
    split.
    + induction (firstn 6 logits) as [| x xs IH]; simpl; constructor;
        [| exact IH].
      split; [reflexivity |]. split.
      * intros Hunit. destruct (float_is_nan x) eqn:E; [| reflexivity].
        apply sigmoid_nan in E. apply in_unit_interval_not_nan in Hunit.
        congruence.
      * apply sigmoid_range.
    + intros Hnum. apply Forall_forall. intros p Hp.
      apply in_map_iff in Hp. destruct Hp as [x [<- Hx]].
      apply sigmoid_range. rewrite Forall_forall in Hnum. now apply Hnum.
Qed.

End ModelContract.

(** C7.  When the model call raises, [classify_comment] raises the
    classification error (status 500) whose detail carries the message of
    the cause; and in every case the call either returns a complete result
    (a non-empty list of labels and the probabilities of all six labels) or
    raises that error. *)
Theorem classify_fails_or_completes (c : string) (t : float) :
  (forall cause, run_model c = Throw cause ->
     classify c t =
     Raise (mkHTTPException 500 ("Classification error: " ++ cause)))
  /\ ((exists r, classify c t = Ok r
                 /\ labels r <> []
                 /\ dict_keys (probabilities r) = LABELS)
      \/ (exists cause,
           classify c t =
           Raise (mkHTTPException 500 ("Classification error: " ++ cause)))).
Proof.
  split.
  - intros cause Hm. now apply classify_comment_model_failure.
  - destruct (classify c t) as [r | e] eqn:H.
    + left. exists r. split; [reflexivity |].
      apply classify_comment_Ok in H.
      destruct H as [logits [_ [Hkeys [_ [_ Hlab]]]]].
      split; [| exact Hkeys]. rewrite Hlab.
      destruct (predicted_labels (probabilities r) t); simpl; discriminate.
    + right. unfold classify_comment, try_except in H.
      destruct (_ <- run_model c ;; _) as [a | cause]; [discriminate H |].
      injection H as <-. now exists cause.
Qed.

End ClassifierClaims.

Lemma classify_labels_threshold_witness :
  classify_comment zero_logits_model coarse_sigmoid "You are wonderful" float_one
  = Ok {| labels := ["none"];
          probabilities := combine LABELS (repeat float_half 6) |}
  /\ (["none"] = ["none"] <->
      Forall (fun item => float_lt (snd item) float_one = true)
             (combine LABELS (repeat float_half 6))).
Proof.
  split; [reflexivity |].
  apply (classify_labels_threshold zero_logits_model coarse_sigmoid
           "You are wonderful" float_one
           {| labels := ["none"];
              probabilities := combine LABELS (repeat float_half 6) |}
           eq_refl).
  - reflexivity.
  - repeat constructor.
Defined.

(** C1, as stated, fails for a NaN threshold: no probability is [>=] NaN, so
    [labels] is [["none"]], yet no probability is below NaN either. *)
Lemma classify_nan_threshold_counterexample :
  exists r,
    classify_comment zero_logits_model coarse_sigmoid "You are wonderful" float_nan
    = Ok r
    /\ labels r = ["none"]
    /\ ~ Forall (fun item => float_lt (snd item) float_nan = true)
                (probabilities r).
Proof.
  eexists. split; [reflexivity |]. split; [reflexivity |].
  intros H. inversion H as [| x l Hx Hl]. discriminate Hx.
Qed.

(** C2, as stated, fails when the model gives a NaN logit: the probability
    of that label is NaN, which is not in [[0,1]]. *)
Lemma classify_nan_probability_counterexample :
  exists r,
    classify_comment mixed_logits_model coarse_sigmoid "some text"
                     default_threshold = Ok r
    /\ In ("obscene", float_nan) (probabilities r)
    /\ in_unit_interval float_nan = false
    /\ ~ Forall (fun p => in_unit_interval p = true)
                (dict_values (probabilities r)).
Proof.
  eexists. split; [reflexivity |].
  split; [simpl; tauto |]. split; [reflexivity |].
  intros H. rewrite Forall_forall in H.
  specialize (H float_nan). simpl in H.
  assert (Hf : in_unit_interval float_nan = true) by (apply H; tauto).
  discriminate Hf.
Qed.

Lemma classify_probabilities_six_keys_unit_witness :
  (forall x, float_is_nan x = false -> in_unit_interval (coarse_sigmoid x) = true)
  /\ (forall x, float_is_nan x = true -> float_is_nan (coarse_sigmoid x) = true)
  /\ classify_comment zero_logits_model coarse_sigmoid "I will kill you"
                      default_threshold
     = Ok {| labels := LABELS;
             probabilities := combine LABELS (repeat float_half 6) |}
  /\ Forall (fun p => in_unit_interval p = true)
            (dict_values (combine LABELS (repeat float_half 6))).
Proof.
  assert (Hs : forall x, float_is_nan x = false ->
                         in_unit_interval (coarse_sigmoid x) = true).
  { intros [s | s | | s m e] Hx; try destruct s; try reflexivity; discriminate Hx. }
  assert (Hn : forall x, float_is_nan x = true ->
                         float_is_nan (coarse_sigmoid x) = true).
  { intros [s | s | | s m e] Hx; try discriminate Hx. reflexivity. }
  split; [exact Hs |]. split; [exact Hn |]. split; [reflexivity |].
  destruct (classify_probabilities_six_keys_unit zero_logits_model coarse_sigmoid
              Hs Hn "I will kill you" default_threshold
              {| labels := LABELS;
                 probabilities := combine LABELS (repeat float_half 6) |}
              eq_refl) as [_ [_ [_ [logits [Hm [_ Hall]]]]]].
  apply Hall. injection Hm as <-. repeat constructor.
Defined.

(* ------------------------------------------------------------------ *)
(** ** Strings *)
(* ------------------------------------------------------------------ *)

Lemma append_assoc (a b c : string) : (a ++ b) ++ c = a ++ (b ++ c).
Proof. induction a as [| ch a IH]; simpl; [reflexivity | now rewrite IH]. Qed.

Lemma append_nil_r (a : string) : a ++ "" = a.
Proof. induction a as [| ch a IH]; simpl; [reflexivity | now rewrite IH]. Qed.

(** Every element of a joined list stands in the joined string. *)
Lemma concat_mentions (sep : string) (l : list string) (s : string) :
  In s l -> exists pre post, String.concat sep l = pre ++ s ++ post.
Proof.
  induction l as [| x l IH]; intros Hin; [contradiction |].
  destruct Hin as [-> | Hin].
  - destruct l as [| y l].
    + exists "", "". simpl. now rewrite append_nil_r.
    + exists "", (sep ++ String.concat sep (y :: l)). reflexivity.
  - destruct l as [| y l]; [contradiction |].
    destruct (IH Hin) as [pre [post Heq]].
    exists (x ++ sep ++ pre), post.
    change (String.concat sep (x :: y :: l))
      with (x ++ sep ++ String.concat sep (y :: l)).
    rewrite Heq. now rewrite !append_assoc.
Qed.

(* ------------------------------------------------------------------ *)
(** ** The store *)
(* ------------------------------------------------------------------ *)

Lemma max_rowid_bound (rows : list FeedbackRow) :
  Forall (fun r => id r <= max_rowid rows) rows.
Proof.
  induction rows as [| r rows IH]; simpl; constructor.
  - lia.
  - eapply Forall_impl; [| exact IH]. simpl. intros a Ha. lia.
Qed.

(** The next rowid lies above every rowid of the table. *)
Lemma next_rowid_fresh (db : Database) :
  Forall (fun r => id r < next_rowid db) (feedback db).
Proof.
  eapply Forall_impl; [| apply max_rowid_bound].
  simpl. intros r Hr. unfold next_rowid. lia.
Qed.

Lemma ascending_ids_snoc (rows : list FeedbackRow) (r : FeedbackRow) :
  ascending_ids rows -> Forall (fun old => id old < id r) rows ->
  ascending_ids (rows ++ [r]).
Proof.
  unfold ascending_ids. induction rows as [| a rows IH]; simpl; intros Hs Hlt.
  - repeat constructor.
  - inversion Hs as [| ? ? Hs' Ha]; subst. inversion Hlt as [| ? ? Ha' Hlt']; subst.
    constructor.
    + now apply IH.
    + rewrite map_app. apply Forall_app. split; [assumption |].
      simpl. repeat constructor. assumption.
Qed.

Lemma ascending_ids_firstn (n : nat) (rows : list FeedbackRow) :
  ascending_ids rows -> ascending_ids (firstn n rows).
Proof.
  unfold ascending_ids. revert n.
  induction rows as [| a rows IH]; intros [| n] Hs; simpl; try constructor.
  - inversion Hs; subst. now apply IH.
  - inversion Hs as [| ? ? _ Ha]; subst.
    rewrite Forall_forall in *. intros x Hx. apply Ha.
    apply in_map_iff in Hx. destruct Hx as [r [<- Hr]].
    apply in_map. eapply firstn_In. exact Hr.
Qed.

Lemma ascending_ids_skipn (n : nat) (rows : list FeedbackRow) :
  ascending_ids rows -> ascending_ids (skipn n rows).
Proof.
  unfold ascending_ids. revert n.
  induction rows as [| a rows IH]; intros [| n] Hs; simpl; try assumption.
  inversion Hs; subst. now apply IH.
Qed.

Lemma ascending_ids_limit_offset (l o : Z) (rows : list FeedbackRow) :
  ascending_ids rows -> ascending_ids (limit_offset l o rows).
Proof.
  intros Hs. unfold limit_offset.
  destruct (o <? 0), (l <? 0);
    auto using ascending_ids_firstn, ascending_ids_skipn.
Qed.

(** Rows that a page leaves out at the front have smaller ids than its own. *)
Lemma ascending_ids_split (n : nat) (rows : list FeedbackRow) :
  ascending_ids rows ->
  forall a b, In a (firstn n rows) -> In b (skipn n rows) -> id a < id b.
Proof.
  unfold ascending_ids. revert n.
  induction rows as [| r rows IH]; intros [| n] Hs a b Ha Hb; simpl in *;
    try contradiction.
  inversion Hs as [| ? ? Hs' Hr]; subst.
  destruct Ha as [<- | Ha].
  - rewrite Forall_forall in Hr. apply Hr. apply in_map.
    eapply skipn_In. exact Hb.
  - eapply IH; eassumption.
Qed.


Lemma bind_int_in_range (v : Z) :
  INT64_MIN <= v <= INT64_MAX -> bind_int v = Done v.
Proof.
  intros [Hlo Hhi]. unfold bind_int.
  apply Z.leb_le in Hlo. apply Z.leb_le in Hhi. now rewrite Hlo, Hhi.
Qed.

Lemma bind_int_out_of_range (v : Z) :
  v < INT64_MIN \/ INT64_MAX < v ->
  bind_int v = Throw "Python int too large to convert to SQLite INTEGER".
Proof.
  intros H. unfold bind_int.
  destruct (INT64_MIN <=? v) eqn:Hlo; [| reflexivity].
  destruct (v <=? INT64_MAX) eqn:Hhi; [| reflexivity].
  apply Z.leb_le in Hlo. apply Z.leb_le in Hhi. lia.
Qed.

(* ------------------------------------------------------------------ *)
(** ** The handlers, case by case *)
(* ------------------------------------------------------------------ *)

Lemma is_invalid_label_spec (label : string) :
  is_invalid_label label = true <-> ~ In label LABELS /\ label <> "none".
Proof.
  unfold is_invalid_label.
  rewrite andb_true_iff, !negb_true_iff, str_in_not_In, String.eqb_neq.
  reflexivity.
Qed.

Lemma no_invalid_labels (ls : list string) :
  filter is_invalid_label ls = [] <->
  Forall (fun l => In l LABELS \/ l = "none") ls.
Proof.
  rewrite filter_nil_Forall. split; intros H;
    (eapply Forall_impl; [| exact H]); cbv beta; intros l Hl.
  - destruct (str_in l LABELS) eqn:E1.
    + left. now apply str_in_In.
    + right. unfold is_invalid_label in Hl. rewrite E1 in Hl. simpl in Hl.
      apply negb_false_iff in Hl. now apply String.eqb_eq.
  - destruct (is_invalid_label l) eqn:E; [| reflexivity].
    apply is_invalid_label_spec in E. destruct E as [E1 E2].
    destruct Hl; contradiction.
Qed.

Lemma submit_feedback_invalid (io : option exn) (now : string)
    (fb : FeedbackRequest) (db : Database) :
  filter is_invalid_label (expected_labels fb) <> [] ->
  submit_feedback io now fb db =
  (Raise (mkHTTPException 400
            ("Invalid labels: " ++
             String.concat ", " (filter is_invalid_label (expected_labels fb)))),
   db).
Proof.
  intros H. unfold submit_feedback.
  destruct (filter is_invalid_label (expected_labels fb)); [congruence | reflexivity].
Qed.

Lemma submit_feedback_stored (now : string) (fb : FeedbackRequest) (db : Database) :
  filter is_invalid_label (expected_labels fb) = [] ->
  next_rowid db <= INT64_MAX ->
  submit_feedback None now fb db =
  (Ok "Feedback stored successfully",
   {| feedback := (feedback db ++ [submitted_row now fb db])%list;
      sqlite_sequence := next_rowid db |}).
Proof.
  intros H Hfit. unfold submit_feedback. rewrite H.
  unfold with_connection, insert_feedback, LABELS. cbn [map bind connect].
  apply Z.leb_le in Hfit. rewrite Hfit. reflexivity.
Qed.

(** With no rowid left the insertion fails and nothing is stored. *)
Lemma submit_feedback_full (now : string) (fb : FeedbackRequest) (db : Database) :
  filter is_invalid_label (expected_labels fb) = [] ->
  INT64_MAX < next_rowid db ->
  submit_feedback None now fb db =
  (Raise (mkHTTPException 500 "Database error: database or disk is full"), db).
Proof.
  intros H Hfull. unfold submit_feedback. rewrite H.
  unfold with_connection, insert_feedback, LABELS. cbn [map bind connect].
  apply Z.leb_gt in Hfull. rewrite Hfull. reflexivity.
Qed.

Lemma submit_feedback_io_failure (cause : exn) (now : string)
    (fb : FeedbackRequest) (db : Database) :
  filter is_invalid_label (expected_labels fb) = [] ->
  submit_feedback (Some cause) now fb db =
  (Raise (mkHTTPException 500 ("Database error: " ++ cause)), db).
Proof.
  intros H. unfold submit_feedback. rewrite H. reflexivity.
Qed.

(** A submission that returns has stored its row. *)
Lemma submit_feedback_Ok (io : option exn) (now : string) (fb : FeedbackRequest)
    (db db' : Database) (m : string) :
  submit_feedback io now fb db = (Ok m, db') ->
  io = None /\ filter is_invalid_label (expected_labels fb) = [] /\
  m = "Feedback stored successfully" /\
  db' = {| feedback := (feedback db ++ [submitted_row now fb db])%list;
           sqlite_sequence := next_rowid db |}.
Proof.
  intros H.
  destruct (filter is_invalid_label (expected_labels fb)) as [| bad rest] eqn:E.
  - destruct io as [cause |].
    + rewrite (submit_feedback_io_failure cause now fb db E) in H. discriminate H.
    + destruct (Z_le_gt_dec (next_rowid db) INT64_MAX) as [Hfit | Hfull].
      * rewrite (submit_feedback_stored now fb db E Hfit) in H.
        injection H as <- <-. auto.
      * rewrite (submit_feedback_full now fb db E) in H by lia. discriminate H.
  - rewrite submit_feedback_invalid in H by (rewrite E; discriminate).
    discriminate H.
Qed.

(** In every case the table is left as it was or gains one row at the end. *)
Lemma submit_feedback_rows (io : option exn) (now : string) (fb : FeedbackRequest)
    (db : Database) :
  snd (submit_feedback io now fb db) = db \/
  (exists m, fst (submit_feedback io now fb db) = Ok m) /\
  feedback (snd (submit_feedback io now fb db)) =
    (feedback db ++ [submitted_row now fb db])%list.
Proof.
  destruct (filter is_invalid_label (expected_labels fb)) as [| bad rest] eqn:E.
  - destruct io as [cause |].
    + left. now rewrite (submit_feedback_io_failure cause now fb db E).
    + destruct (Z_le_gt_dec (next_rowid db) INT64_MAX) as [Hfit | Hfull].
      * right. rewrite (submit_feedback_stored now fb db E Hfit). simpl. eauto.
      * left. rewrite (submit_feedback_full now fb db E) by lia. reflexivity.
  - left. rewrite submit_feedback_invalid by (rewrite E; discriminate).
    reflexivity.
Qed.

Lemma get_feedback_stats_count (db : Database) :
  get_feedback_stats None db = (Ok (Z.of_nat (List.length (feedback db))), db).
Proof. reflexivity. Qed.


Lemma view_feedback_in_range (limit offset : Z) (db : Database) :
  INT64_MIN <= limit <= INT64_MAX -> INT64_MIN <= offset <= INT64_MAX ->
  view_feedback None limit offset db =
  (Ok (limit_offset limit offset (feedback db)), db).
Proof.
  intros Hl Ho. unfold view_feedback, with_connection, select_page.
  rewrite (bind_int_in_range limit Hl), (bind_int_in_range offset Ho).
  reflexivity.
Qed.

Lemma view_feedback_out_of_range (limit offset : Z) (db : Database) :
  ~ (INT64_MIN <= limit <= INT64_MAX /\ INT64_MIN <= offset <= INT64_MAX) ->
  view_feedback None limit offset db =
  (Raise (mkHTTPException 500
            "Failed to retrieve feedback: Python int too large to convert to SQLite INTEGER"),
   db).
Proof.
  intros H. unfold view_feedback, with_connection, select_page.
  destruct (Z_le_dec INT64_MIN limit) as [L1 | L1];
    [destruct (Z_le_dec limit INT64_MAX) as [L2 | L2] |];
    try (rewrite (bind_int_out_of_range limit) by lia; reflexivity).
  rewrite (bind_int_in_range limit) by lia.
  rewrite (bind_int_out_of_range offset) by lia. reflexivity.
Qed.


(** The readers leave the database as it is. *)
Lemma get_feedback_stats_frame (io : option exn) (db : Database) :
  snd (get_feedback_stats io db) = db.
Proof. destruct io; reflexivity. Qed.

Lemma view_feedback_frame (io : option exn) (limit offset : Z) (db : Database) :
  snd (view_feedback io limit offset db) = db.
Proof.
  destruct io; [reflexivity |].
  unfold view_feedback, with_connection, select_page.
  destruct (bind_int limit); [| reflexivity].
  destruct (bind_int offset); reflexivity.
Qed.

(** A page holds rows of the table only. *)
Lemma view_feedback_rows (io : option exn) (limit offset : Z) (db : Database)
    (page : list FeedbackRow) :
  fst (view_feedback io limit offset db) = Ok page ->
  page = limit_offset limit offset (feedback db).
Proof.
  destruct io; [discriminate |].
  unfold view_feedback, with_connection, select_page, bind_int.
  destruct (_ && _); [| discriminate].
  destruct (_ && _); [| discriminate].
  simpl. congruence.
Qed.

Lemma submitted_row_flags (now : string) (fb : FeedbackRequest) (db : Database)
    (name : string) :
  In name LABELS ->
  label_column name (submitted_row now fb db) =
  Some (if str_in name (expected_labels fb) then 1 else 0).
Proof.
  unfold LABELS. simpl.
  intros [<- | [<- | [<- | [<- | [<- | [<- | []]]]]]]; reflexivity.
Qed.

(** Well-formedness of the table is kept by a submission. *)
Lemma submit_feedback_wf (io : option exn) (now : string) (fb : FeedbackRequest)
    (db : Database) :
  wf_db db -> wf_db (snd (submit_feedback io now fb db)).
Proof.
  intros Hwf.
  destruct (submit_feedback_rows io now fb db) as [-> | [_ Hrows]]; [assumption |].
  unfold wf_db. rewrite Hrows. apply ascending_ids_snoc; [assumption |].
  apply next_rowid_fresh.
Qed.

Lemma empty_db_wf : wf_db empty_db.
Proof. constructor. Qed.

(* ------------------------------------------------------------------ *)
(** ** Feedback submission *)
(* ------------------------------------------------------------------ *)

(** C3.  A submission whose [expected_labels] holds an element that is
    neither one of the six label names nor ["none"] fails with the
    validation error (status 400); its message is ["Invalid labels: "]
    followed by the offending values joined with [", "], so each of them
    stands in it; and the feedback table, hence the count of
    [get_feedback_stats], is as before the call. *)
Theorem submit_invalid_labels_rejected
    (io : option exn) (now : string) (fb : FeedbackRequest) (db : Database)
    (bad : string) :
  In bad (expected_labels fb) -> ~ In bad LABELS -> bad <> "none" ->
  let invalid := filter is_invalid_label (expected_labels fb) in
  let message := "Invalid labels: " ++ String.concat ", " invalid in
  submit_feedback io now fb db = (Raise (mkHTTPException 400 message), db)
  /\ (forall l, In l invalid <->
                In l (expected_labels fb) /\ ~ In l LABELS /\ l <> "none")
  /\ (forall l, In l invalid -> exists pre post, message = pre ++ l ++ post)
  /\ (forall io',
        get_feedback_stats io' (snd (submit_feedback io now fb db)) =
        get_feedback_stats io' db).
Proof.
  intros Hin Hlab Hnone invalid message.
  assert (Hbad : In bad invalid).
  { apply filter_In. split; [assumption |]. now apply is_invalid_label_spec. }
  assert (Hsub : submit_feedback io now fb db =
                 (Raise (mkHTTPException 400 message), db)).
  { apply submit_feedback_invalid. fold invalid.
    intros E. rewrite E in Hbad. contradiction. }
  split; [exact Hsub |]. split; [| split].
  - intros l. unfold invalid. rewrite filter_In, is_invalid_label_spec. reflexivity.
  - intros l Hl. destruct (concat_mentions ", " invalid l Hl) as [pre [post E]].
    exists ("Invalid labels: " ++ pre), post. unfold message.
    rewrite E. now rewrite append_assoc.
  - intros io'. rewrite Hsub. reflexivity.
Qed.

Lemma submit_invalid_labels_rejected_witness :
  submit_feedback None "2024-05-01 10:00:00"
    (mkFeedbackRequest "some text" ["toxic"; "bogus"; "none"; "fake"]) empty_db
  = (Raise (mkHTTPException 400 "Invalid labels: bogus, fake"), empty_db)
  /\ get_feedback_stats None empty_db = (Ok 0, empty_db).
Proof.
  assert (H1 : In "bogus" ["toxic"; "bogus"; "none"; "fake"]) by (simpl; auto).
  assert (H2 : ~ In "bogus" LABELS) by (apply str_in_not_In; reflexivity).
  assert (H3 : "bogus" <> "none") by discriminate.
  pose proof (submit_invalid_labels_rejected None "2024-05-01 10:00:00"
                (mkFeedbackRequest "some text" ["toxic"; "bogus"; "none"; "fake"])
                empty_db "bogus" H1 H2 H3) as H.
  cbv zeta in H. destruct H as [H _].
  split; [exact H | reflexivity].
Defined.



(** C6.  For every store state, a submission that succeeds is followed by a
    count that is exactly one greater than the count before it. *)
Theorem submit_then_count_increments
    (io : option exn) (now : string) (fb : FeedbackRequest)
    (db db' : Database) (m : string) :
  submit_feedback io now fb db = (Ok m, db') ->
  exists n,
    get_feedback_stats None db = (Ok n, db)
    /\ get_feedback_stats None db' = (Ok (n + 1), db').
Proof.
  intros H. apply submit_feedback_Ok in H. destruct H as [_ [_ [_ ->]]].
  exists (Z.of_nat (List.length (feedback db))).
  rewrite !get_feedback_stats_count. split; [reflexivity |].
  cbn [feedback]. rewrite length_app. simpl.
  do 2 f_equal. lia.
Qed.

Lemma submit_then_count_increments_witness :
  exists db',
    submit_feedback None "2024-05-01 10:00:00"
      (mkFeedbackRequest "fine" ["none"]) empty_db
    = (Ok "Feedback stored successfully", db')
    /\ get_feedback_stats None empty_db = (Ok 0, empty_db)
    /\ get_feedback_stats None db' = (Ok 1, db').
Proof.
  eexists. split; [reflexivity |].
  destruct (submit_then_count_increments None "2024-05-01 10:00:00"
              (mkFeedbackRequest "fine" ["none"]) empty_db _ _ eq_refl)
    as [n [H0 H1]].
  injection H0 as <-. split; [reflexivity | exact H1].
Defined.

(* ------------------------------------------------------------------ *)
(** ** Listing *)
(* ------------------------------------------------------------------ *)

Lemma limit_offset_nonneg {A : Type} (l o : Z) (rows : list A) :
  0 <= l -> 0 <= o ->
  limit_offset l o rows = firstn (Z.to_nat l) (skipn (Z.to_nat o) rows).
Proof.
  intros Hl Ho. unfold limit_offset.
  destruct (Z.ltb_spec o 0); [lia |]. destruct (Z.ltb_spec l 0); [lia |].
  reflexivity.
Qed.

(** C5.  For every store state, and every limit and offset that are not
    negative, what a listing returns is the rows left after skipping the
    first [offset] rows, cut after [limit] rows, the rows being taken in
    ascending id; the listing does return when the store works and the two
    values fit its integers.  In particular, after five submissions into an
    empty store, [limit=2, offset=0] returns exactly the rows with the two
    smallest ids and [limit=2, offset=4] returns exactly one row. *)
Theorem view_feedback_pages_by_ascending_id :
  (forall (db : Database) (limit offset : Z),
      wf_db db -> 0 <= limit -> 0 <= offset ->
      let skipped := firstn (Z.to_nat offset) (feedback db) in
      let page := firstn (Z.to_nat limit) (skipn (Z.to_nat offset) (feedback db)) in
      (forall io rows,
          fst (view_feedback io limit offset db) = Ok rows -> rows = page)
      /\ (limit <= INT64_MAX -> offset <= INT64_MAX ->
          view_feedback None limit offset db = (Ok page, db))
      /\ Z.of_nat (List.length page) =
         Z.min limit (Z.max 0 (Z.of_nat (List.length (feedback db)) - offset))
      /\ ascending_ids page
      /\ (forall a b, In a skipped -> In b page -> id a < id b))
  /\ (forall n1 f1 n2 f2 n3 f3 n4 f4 n5 f5,
        Forall (fun fb => Forall (fun l => In l LABELS \/ l = "none")
                                 (expected_labels fb))
               [f1; f2; f3; f4; f5] ->
        let db5 :=
          submit_all [(n1, f1); (n2, f2); (n3, f3); (n4, f4); (n5, f5)]
                     empty_db in
        exists r1 r2 r3 r4 r5,
          feedback db5 = [r1; r2; r3; r4; r5]
          /\ map id [r1; r2; r3; r4; r5] = [1; 2; 3; 4; 5]
          /\ map comment [r1; r2; r3; r4; r5] =
             map feedback_comment [f1; f2; f3; f4; f5]
          /\ view_feedback None 2 0 db5 = (Ok [r1; r2], db5)
          /\ view_feedback None 2 4 db5 = (Ok [r5], db5)).
Proof.
  split.
  - intros db limit offset Hwf Hl Ho skipped page.
    split; [| split; [| split; [| split]]].
    + intros io rows Hrows. apply view_feedback_rows in Hrows.
      now rewrite limit_offset_nonneg in Hrows by lia.
    + intros Hl' Ho'.
      rewrite view_feedback_in_range by (unfold INT64_MIN; lia).
      now rewrite limit_offset_nonneg by lia.
    + unfold page. rewrite length_firstn, length_skipn. lia.
    + unfold page. apply ascending_ids_firstn, ascending_ids_skipn. exact Hwf.
    + intros a b Ha Hb. unfold page in Hb. apply firstn_In in Hb.
      eapply ascending_ids_split; eassumption.
  - intros n1 f1 n2 f2 n3 f3 n4 f4 n5 f5 Hvalid db5.
    repeat match goal with
           | H : Forall _ (_ :: _) |- _ =>
               let Hh := fresh "Hv" in
               let Ht := fresh "Hrest" in
               inversion H as [| ? ? Hh Ht]; subst; clear H;
               apply no_invalid_labels in Hh
           end.
    unfold db5, submit_all. cbn [fold_left fst snd].
    rewrite (submit_feedback_stored n1 f1 _ Hv)
      by (apply Z.leb_le; reflexivity). cbn [snd].
    rewrite (submit_feedback_stored n2 f2 _ Hv0)
      by (apply Z.leb_le; reflexivity). cbn [snd].
    rewrite (submit_feedback_stored n3 f3 _ Hv1)
      by (apply Z.leb_le; reflexivity). cbn [snd].
    rewrite (submit_feedback_stored n4 f4 _ Hv2)
      by (apply Z.leb_le; reflexivity). cbn [snd].
    rewrite (submit_feedback_stored n5 f5 _ Hv3)
      by (apply Z.leb_le; reflexivity). cbn [snd].
    do 5 eexists.
    split; [reflexivity |]. split; [reflexivity |]. split; [reflexivity |].
    split; reflexivity.
Qed.

Lemma view_feedback_pages_by_ascending_id_witness :
  let fb := mkFeedbackRequest "text" ["toxic"] in
  let db5 := submit_all [("t1", fb); ("t2", fb); ("t3", fb); ("t4", fb); ("t5", fb)]
                        empty_db in
  wf_db db5
  /\ view_feedback None 2 0 db5 = (Ok (firstn 2 (feedback db5)), db5)
  /\ view_feedback None 2 4 db5 = (Ok (skipn 4 (feedback db5)), db5).
Proof.
  cbv zeta.
  assert (Hwf : wf_db
            (submit_all
               [("t1", mkFeedbackRequest "text" ["toxic"]);
                ("t2", mkFeedbackRequest "text" ["toxic"]);
                ("t3", mkFeedbackRequest "text" ["toxic"]);
                ("t4", mkFeedbackRequest "text" ["toxic"]);
                ("t5", mkFeedbackRequest "text" ["toxic"])] empty_db)).
  { unfold wf_db, ascending_ids. simpl.
    repeat (constructor; [| repeat constructor]). constructor. }
  assert (H0 : 0 <= 0) by lia. assert (H2 : 0 <= 2) by lia.
  assert (H4 : 0 <= 4) by lia.
  split; [exact Hwf |].
  destruct view_feedback_pages_by_ascending_id as [Hgen _].
  split.
  - destruct (Hgen _ 2 0 Hwf H2 H0) as [_ [Hret _]].
    apply Hret; unfold INT64_MAX; lia.
  - destruct (Hgen _ 2 4 Hwf H2 H4) as [_ [Hret _]].
    apply Hret; unfold INT64_MAX; lia.
Defined.

(** C10 (amended).  [view_feedback] neither validates nor clamps [limit] and
    [offset]: it hands them to the store as they are.  When both fit a
    signed 64-bit integer and the store works, a negative limit returns all
    the rows left after the offset, and a negative offset acts as zero; a
    value that does not fit makes the call fail with status 500. *)
Theorem view_feedback_negative_arguments
    (limit offset : Z) (db : Database) :
  INT64_MIN <= limit <= INT64_MAX -> INT64_MIN <= offset <= INT64_MAX ->
  view_feedback None limit offset db =
  (Ok (limit_offset limit offset (feedback db)), db)
  /\ (limit < 0 ->
      view_feedback None limit offset db =
      (Ok (skipn (Z.to_nat offset) (feedback db)), db))
  /\ (offset < 0 ->
      view_feedback None limit offset db = view_feedback None limit 0 db)
  /\ (limit < 0 -> offset < 0 ->
      view_feedback None limit offset db = (Ok (feedback db), db))
  /\ (forall big,
        big < INT64_MIN \/ INT64_MAX < big ->
        exists e,
          fst (view_feedback None big offset db) = Raise e
          /\ fst (view_feedback None limit big db) = Raise e
          /\ status_code e = 500).
Proof.
  intros Hl Ho.
  assert (H0 : INT64_MIN <= 0 <= INT64_MAX) by (unfold INT64_MIN, INT64_MAX; lia).
  rewrite (view_feedback_in_range limit offset db Hl Ho).
  split; [reflexivity |].
  rewrite (view_feedback_in_range limit 0 db Hl H0).
  unfold limit_offset.
  split; [| split; [| split]].
  - intros Hneg. destruct (Z.ltb_spec limit 0); [| lia].
    destruct (Z.ltb_spec offset 0); [| reflexivity].
    replace (Z.to_nat offset) with 0%nat by lia. reflexivity.
  - intros Hneg. destruct (Z.ltb_spec offset 0); [| lia]. reflexivity.
  - intros Hneg Hneg'. destruct (Z.ltb_spec limit 0); [| lia].
    destruct (Z.ltb_spec offset 0); [| lia]. reflexivity.
  - intros big Hbig. eexists.
    rewrite (view_feedback_out_of_range big offset db) by lia.
    rewrite (view_feedback_out_of_range limit big db) by lia.
    repeat split.
Qed.

Lemma view_feedback_negative_arguments_witness :
  let fb := mkFeedbackRequest "text" ["toxic"] in
  let db3 := submit_all [("t1", fb); ("t2", fb); ("t3", fb)] empty_db in
  view_feedback None (-1) 1 db3 = (Ok (skipn 1 (feedback db3)), db3)
  /\ view_feedback None 2 (-7) db3 = view_feedback None 2 0 db3
  /\ view_feedback None (-5) (-7) db3 = (Ok (feedback db3), db3).
Proof.
  cbv zeta.
  assert (R : forall v, -8 <= v <= 8 -> INT64_MIN <= v <= INT64_MAX)
    by (unfold INT64_MIN, INT64_MAX; lia).
  assert (B1 : -8 <= -1 <= 8) by lia. assert (B2 : -8 <= 1 <= 8) by lia.
  assert (B3 : -8 <= 2 <= 8) by lia. assert (B4 : -8 <= -7 <= 8) by lia.
  assert (B5 : -8 <= -5 <= 8) by lia.
  split; [| split].
  - apply (view_feedback_negative_arguments (-1) 1 _ (R _ B1) (R _ B2)). lia.
  - apply (view_feedback_negative_arguments 2 (-7) _ (R _ B3) (R _ B4)). lia.
  - apply (view_feedback_negative_arguments (-5) (-7) _ (R _ B5) (R _ B4)); lia.
Defined.

(** C10, as stated, fails for a negative limit below the store's integers:
    the call fails instead of returning the rows. *)
Lemma view_feedback_negative_limit_counterexample :
  let db1 :=
    submit_all [("t1", mkFeedbackRequest "text" ["toxic"])] empty_db in
  -9223372036854775809 < 0
  /\ fst (view_feedback None (-9223372036854775809) 0 db1)
     = Raise (mkHTTPException 500
                "Failed to retrieve feedback: Python int too large to convert to SQLite INTEGER")
  /\ fst (view_feedback None (-9223372036854775809) 0 db1) <> Ok (feedback db1).
Proof.
  cbv zeta. split; [lia |]. split; [reflexivity | discriminate].
Qed.

(* ------------------------------------------------------------------ *)
(** ** The service as a whole *)
(* ------------------------------------------------------------------ *)

Section ServiceClaims.

Variable run_model : string -> attempt (list float).
Variable sigmoid : float -> float.

#[local] Abbreviation serve := (handle run_model sigmoid).

Lemma map_outcome_snd {A B : Type} (f : A -> B) (r : outcome A * Database) :
  snd (map_outcome f r) = snd r.
Proof. destruct r as [[a | e] db]; reflexivity. Qed.


(** Every request leaves the rows of the table in place, adding at most one
    row behind them. *)
Lemma handle_rows (env : environment) (req : request) (db : Database) :
  snd (serve env req db) = db \/
  exists row,
    feedback (snd (serve env req db)) = (feedback db ++ [row])%list
    /\ Forall (fun old => id old < id row) (feedback db).
Proof.
  destruct req as [| r | fb | | limit offset]; unfold handle;
    rewrite map_outcome_snd.
  - now left.
  - now left.
  - destruct (submit_feedback_rows (io_failure env) (clock env) fb db)
      as [H | [_ H]]; [now left | right].
    exists (submitted_row (clock env) fb db).
    split; [exact H | apply next_rowid_fresh].
  - left. apply get_feedback_stats_frame.
  - left. apply view_feedback_frame.
Qed.

Lemma run_rows (trace : list (environment * request)) :
  forall db, exists added,
    feedback (run run_model sigmoid trace db) = (feedback db ++ added)%list.
Proof.
  induction trace as [| [env req] trace IH]; intros db; simpl.
  - exists []. now rewrite app_nil_r.
  - destruct (IH (snd (serve env req db))) as [added Hadded].
    destruct (handle_rows env req db) as [Hsame | [row [Hrow _]]].
    + exists added. now rewrite Hadded, Hsame.
    + exists (row :: added). rewrite Hadded, Hrow, <- app_assoc. reflexivity.
Qed.

(** Every database the service reaches from a well-formed one, and so from
    the empty one, is well-formed. *)
Lemma handle_wf (env : environment) (req : request) (db : Database) :
  wf_db db -> wf_db (snd (serve env req db)).
Proof.
  intros Hwf. destruct (handle_rows env req db) as [-> | [row [Hrow Hlt]]];
    [assumption |].
  unfold wf_db. rewrite Hrow. now apply ascending_ids_snoc.
Qed.

Lemma run_wf (trace : list (environment * request)) :
  forall db, wf_db db -> wf_db (run run_model sigmoid trace db).
Proof.
  induction trace as [| [env req] trace IH]; intros db Hwf; simpl;
    [assumption |].
  apply IH. now apply handle_wf.
Qed.

(** C9.  Feedback entries are immutable once written: counting, listing and
    classifying leave the database as it is; a submission leaves it as it is
    or appends one row with a new id behind the rows already there; and
    after any sequence of requests every row that was stored is still
    there, at its place and with its id, comment, label flags and
    timestamp. *)
Theorem feedback_rows_are_immutable :
  (forall io db, snd (get_feedback_stats io db) = db)
  /\ (forall io limit offset db, snd (view_feedback io limit offset db) = db)
  /\ (forall r db, snd (classify_text run_model sigmoid r db) = db)
  /\ (forall io now fb db,
        snd (submit_feedback io now fb db) = db
        \/ exists row,
            feedback (snd (submit_feedback io now fb db))
            = (feedback db ++ [row])%list
            /\ Forall (fun old => id old < id row) (feedback db))
  /\ (forall trace db i row,
        nth_error (feedback db) i = Some row ->
        nth_error (feedback (run run_model sigmoid trace db)) i = Some row)
  /\ (forall trace db,
        (List.length (feedback db)
         <= List.length (feedback (run run_model sigmoid trace db)))%nat).
Proof.
  split; [exact get_feedback_stats_frame |].
  split; [exact view_feedback_frame |].
  split; [reflexivity |].
  split; [| split].
  - intros io now fb db.
    destruct (submit_feedback_rows io now fb db) as [H | [_ H]]; [now left | right].
    exists (submitted_row now fb db). split; [exact H | apply next_rowid_fresh].
  - intros trace db i row Hi.
    destruct (run_rows trace db) as [added ->].
    rewrite nth_error_app1; [exact Hi |].
    apply nth_error_Some. congruence.
  - intros trace db. destruct (run_rows trace db) as [added ->].
    rewrite length_app. lia.
Qed.



End ServiceClaims.

Lemma classify_fails_or_completes_witness :
  classify_comment (fun _ => Throw "CUDA out of memory") coarse_sigmoid
                   "some text" default_threshold
  = Raise (mkHTTPException 500 "Classification error: CUDA out of memory").
Proof.
  apply (classify_fails_or_completes (fun _ => Throw "CUDA out of memory")
           coarse_sigmoid "some text" default_threshold).
  reflexivity.
Defined.

Lemma feedback_rows_are_immutable_witness :
  let fb := mkFeedbackRequest "text" ["toxic"] in
  let db1 := submit_all [("t1", fb)] empty_db in
  let trace :=
    [ (mkEnvironment None "t2", GetViewFeedback 10 0);
      (mkEnvironment None "t3", PostSubmitFeedback fb);
      (mkEnvironment (Some "disk I/O error") "t4", PostSubmitFeedback fb);
      (mkEnvironment None "t5", PostClassify (mkClassificationRequest "text"));
      (mkEnvironment None "t6", GetFeedbackStats) ] in
  nth_error (feedback db1) 0 = Some (submitted_row "t1" fb empty_db)
  /\ nth_error (feedback (run zero_logits_model coarse_sigmoid trace db1)) 0
     = Some (submitted_row "t1" fb empty_db).
Proof.
  cbv zeta. split; [reflexivity |].
  apply (feedback_rows_are_immutable zero_logits_model coarse_sigmoid).
  reflexivity.
Defined.



(* ================================================================== *)
(** * Further properties of the handlers *)
(* ================================================================== *)

(* ------------------------------------------------------------------ *)
(** ** The order of floats *)
(* ------------------------------------------------------------------ *)

Lemma SFcompare_refl (p : float) :
  float_is_nan p = false -> SFcompare p p = Some Eq.
Proof.
  destruct p as [s | s | | s m e]; simpl; intros H; try discriminate H;
    try (destruct s; reflexivity).
  pose proof (Pos.compare_refl m) as Hm. unfold Pos.compare in Hm.
  destruct s; rewrite Z.compare_refl, Hm; reflexivity.
Qed.

Lemma float_ge_refl (p : float) :
  float_is_nan p = false -> float_ge p p = true.
Proof.
  intros H. unfold float_ge, SFleb. now rewrite (SFcompare_refl p H).
Qed.

Lemma float_ge_not_nan (p t : float) :
  float_ge p t = true -> float_is_nan p = false /\ float_is_nan t = false.
Proof.
  unfold float_ge, SFleb. destruct p, t; simpl; intros H;
    try discriminate H; split; reflexivity.
Qed.

(** [>=] is transitive. *)
Lemma float_ge_trans (a b c : float) :
  float_ge a b = true -> float_ge b c = true -> float_ge a c = true.
Proof.
  unfold float_ge, SFleb.
  destruct a as [sa | sa | | sa ma ea], b as [sb | sb | | sb mb eb],
           c as [sc | sc | | sc mc ec];
    try destruct sa; try destruct sb; try destruct sc;
    cbn [SFcompare]; try congruence;
    repeat match goal with
           | |- context [Pos.compare_cont Eq ?x ?y] =>
               change (Pos.compare_cont Eq x y) with (Pos.compare x y)
           end;
    repeat match goal with
           | |- context [Z.compare ?x ?y] =>
               destruct (Z.compare_spec x y); subst; try lia
           | |- context [Pos.compare ?x ?y] =>
               destruct (Pos.compare_spec x y); subst; try lia
           end;
    cbn; congruence.
Qed.

(* ------------------------------------------------------------------ *)
(** ** More on [classify_comment] *)
(* ------------------------------------------------------------------ *)

Lemma dict_get_In (d : dict) (k : string) (v : float) :
  NoDup (dict_keys d) -> In (k, v) d -> dict_get d k = Some v.
Proof.
  induction d as [| [k' v'] d IH]; simpl; intros Hnd Hin; [contradiction |].
  inversion Hnd as [| ? ? Hk' Hnd']; subst.
  destruct Hin as [Heq | Hin].
  - injection Heq as -> ->. now rewrite String.eqb_refl.
  - destruct (String.eqb k' k) eqn:E; [| now apply IH].
    apply String.eqb_eq in E. subst k'. exfalso. apply Hk'.
    unfold dict_keys. apply in_map_iff. now exists (k, v).
Qed.

(** Over distinct keys, selecting items and reading off their keys is the
    same as selecting the keys by what the dictionary holds for them. *)
Lemma filter_items_keys (g : float -> bool) (d : dict) :
  NoDup (dict_keys d) ->
  map fst (filter (fun item => g (snd item)) d) =
  filter (fun k => match dict_get d k with
                   | Some p => g p
                   | None => false
                   end) (dict_keys d).
Proof.
  induction d as [| [k v] d IH]; simpl; intros Hnd; [reflexivity |].
  inversion Hnd as [| ? ? Hk Hnd']; subst.
  rewrite String.eqb_refl.
  assert (Htail :
    filter (fun k0 => match (if String.eqb k k0 then Some v else dict_get d k0) with
                      | Some p => g p
                      | None => false
                      end) (dict_keys d)
    = filter (fun k0 => match dict_get d k0 with
                        | Some p => g p
                        | None => false
                        end) (dict_keys d)).
  { apply filter_ext_in. intros k0 Hk0.
    destruct (String.eqb k k0) eqn:E; [| reflexivity].
    apply String.eqb_eq in E. subst k0. contradiction. }
  fold (dict_keys d). rewrite Htail.
  destruct (g v); simpl; now rewrite IH.
Qed.

Section ClassifierExtras.

Variable run_model : string -> attempt (list float).
Variable sigmoid : float -> float.

#[local] Abbreviation classify := (classify_comment run_model sigmoid).

(** The threshold has no part in whether the call returns, nor in the
    probabilities. *)
Lemma classify_comment_other_threshold (c : string) (t t' : float) :
  match classify c t with
  | Ok r =>
      classify c t' =
      Ok {| labels := py_or (predicted_labels (probabilities r) t') ["none"];
            probabilities := probabilities r |}
  | Raise e => classify c t' = Raise e
  end.
Proof.
  unfold classify_comment.
  destruct (run_model c) as [logits | e]; cbn [bind try_except]; [| reflexivity].
  destruct (dict_comprehension (squeeze_tolist (map sigmoid logits)) LABELS 0 [])
    as [d | e]; cbn [bind try_except]; reflexivity.
Qed.

(** X1.  Whether [classify_comment] returns is decided by the number of
    logits the model gives: with six or more it returns, and the
    probabilities are the sigmoids of the first six, further logits being
    dropped; with exactly one the squeezed value is a bare float and the
    call fails on indexing it; with none or two to five it fails with an
    index out of range.  Both failures have status 500. *)
Theorem classify_comment_logit_count (c : string) (t : float) (logits : list float) :
  run_model c = Done logits ->
  ((6 <= List.length logits)%nat ->
   exists r, classify c t = Ok r
             /\ dict_values (probabilities r) = firstn 6 (map sigmoid logits))
  /\ (List.length logits = 1%nat ->
      classify c t =
      Raise (mkHTTPException 500
               "Classification error: 'float' object is not subscriptable"))
  /\ ((List.length logits < 6)%nat -> List.length logits <> 1%nat ->
      classify c t =
      Raise (mkHTTPException 500
               "Classification error: list index out of range")).
Proof.
  intros Hm. split; [| split].
  - intros Hlen.
    destruct (classify_comment_returns run_model sigmoid c t logits Hm Hlen)
      as [r Hr].
    exists r. split; [exact Hr |].
    apply classify_comment_Ok in Hr.
    destruct Hr as [logits' [Hm' [_ [Hvals _]]]].
    rewrite Hm in Hm'. injection Hm' as <-. exact Hvals.
  - intros Hlen. unfold classify_comment. rewrite Hm.
    destruct logits as [| x [| y l]]; try discriminate Hlen. reflexivity.
  - intros Hlt Hne. unfold classify_comment. rewrite Hm.
    destruct logits as [| x0 [| x1 [| x2 [| x3 [| x4 [| x5 l]]]]]];
      simpl in Hlt, Hne; try lia; try congruence; reflexivity.
Qed.

(** X2.  The threshold only acts on the labels: for one comment, calls with
    two thresholds fail together, with the same error, or return together,
    with the same probabilities. *)
Theorem classify_comment_threshold_only_labels (c : string) (t t' : float) :
  (forall e, classify c t = Raise e -> classify c t' = Raise e)
  /\ (forall r, classify c t = Ok r ->
        exists r', classify c t' = Ok r'
                   /\ probabilities r' = probabilities r).
Proof.
  pose proof (classify_comment_other_threshold c t t') as H.
  split.
  - intros e He. now rewrite He in H.
  - intros r Hr. rewrite Hr in H. eexists. split; [exact H | reflexivity].
Qed.

(** X3.  The labels of a result are never empty and hold no name twice;
    they are either the single ["none"] or the names of [LABELS], in the
    order of [LABELS], whose probability in the result is [>=] the
    threshold. *)
Theorem classify_comment_labels_in_order
    (c : string) (t : float) (r : ClassificationResponse) :
  classify c t = Ok r ->
  let passes name := match dict_get (probabilities r) name with
                     | Some p => float_ge p t
                     | None => false
                     end in
  labels r <> []
  /\ NoDup (labels r)
  /\ (List.length (labels r) <= 6)%nat
  /\ (filter passes LABELS = [] -> labels r = ["none"])
  /\ (filter passes LABELS <> [] -> labels r = filter passes LABELS).
Proof.
  intros H passes. apply classify_comment_Ok in H.
  destruct H as [logits [_ [Hkeys [_ [_ Hlab]]]]].
  assert (Hsel : predicted_labels (probabilities r) t = filter passes LABELS).
  { unfold predicted_labels, dict_items.
    rewrite (filter_items_keys (fun p => float_ge p t) (probabilities r))
      by (rewrite Hkeys; exact LABELS_NoDup).
    now rewrite Hkeys. }
  rewrite Hsel in Hlab. rewrite Hlab.
  destruct (filter passes LABELS) as [| x xs] eqn:E; cbn [py_or].
  - repeat split; try discriminate; try (simpl; lia); try congruence.
    repeat constructor. simpl. tauto.
  - repeat split; try discriminate; try congruence.
    + rewrite <- E. apply NoDup_filter. exact LABELS_NoDup.
    + rewrite <- E. rewrite <- LABELS_length. apply filter_length_le.
Qed.

(** X4.  Raising the threshold selects no further label: when [t'] is
    [>=] [t], every name in the labels for [t'] other than the stand-in
    ["none"] is in the labels for [t], and when the labels for [t] are the
    single ["none"] so are the labels for [t']. *)
Theorem classify_comment_threshold_monotone
    (c : string) (t t' : float) (r r' : ClassificationResponse) :
  float_ge t' t = true ->
  classify c t = Ok r -> classify c t' = Ok r' ->
  (forall name, In name (labels r') -> name <> "none" -> In name (labels r))
  /\ (labels r = ["none"] -> labels r' = ["none"]).
Proof.
  intros Hge Hr Hr'.
  pose proof (classify_comment_other_threshold c t t') as H.
  rewrite Hr, Hr' in H. injection H as ->.
  cbn [labels].
  apply classify_comment_Ok in Hr.
  destruct Hr as [logits [_ [Hkeys [_ [_ Hlab]]]]].
  assert (Hmono : forall name,
             In name (predicted_labels (probabilities r) t') ->
             In name (predicted_labels (probabilities r) t)).
  { intros name Hsel'. apply predicted_labels_In in Hsel'.
    destruct Hsel' as [p [Hp Hpt]].
    apply predicted_labels_In. exists p. split; [exact Hp |].
    eapply float_ge_trans; eassumption. }
  assert (Hnone : forall th, ~ In "none" (predicted_labels (probabilities r) th)).
  { intros th Hin. apply predicted_labels_keys in Hin. rewrite Hkeys in Hin.
    exact (none_not_in_LABELS Hin). }
  split.
  - intros name Hin Hne.
    assert (Hsel' : In name (predicted_labels (probabilities r) t')).
    { destruct (predicted_labels (probabilities r) t') as [| x xs]; [| exact Hin].
      simpl in Hin. destruct Hin as [<- | []]. congruence. }
    apply Hmono in Hsel'. rewrite Hlab.
    destruct (predicted_labels (probabilities r) t); [contradiction | exact Hsel'].
  - intros Hr. rewrite Hlab in Hr.
    assert (Hnil : predicted_labels (probabilities r) t = []).
    { destruct (predicted_labels (probabilities r) t) as [| x xs] eqn:E;
        [reflexivity |].
      cbn [py_or] in Hr. exfalso. apply (Hnone t). rewrite E, Hr. now left. }
    destruct (predicted_labels (probabilities r) t') as [| x xs] eqn:E';
      [reflexivity |].
    exfalso. specialize (Hmono x (or_introl eq_refl)).
    rewrite Hnil in Hmono. contradiction.
Qed.

(** X5.  How the comparison treats its edges: a label whose probability is
    NaN is never selected, with a NaN threshold the labels are ["none"]
    whatever the probabilities, and the comparison is inclusive, a label
    being selected when the threshold equals its probability. *)
Theorem classify_comment_nan_and_boundary
    (c : string) (t : float) (r : ClassificationResponse) :
  classify c t = Ok r ->
  (forall name p, In (name, p) (probabilities r) ->
                  float_is_nan p = true -> ~ In name (labels r))
  /\ (float_is_nan t = true -> labels r = ["none"])
  /\ (forall name p, In (name, p) (probabilities r) ->
                     float_is_nan p = false ->
                     exists r', classify c p = Ok r' /\ In name (labels r')).
Proof.
  intros H. pose proof (classify_comment_other_threshold c t) as Hother.
  rewrite H in Hother.
  apply classify_comment_Ok in H.
  destruct H as [logits [_ [Hkeys [_ [_ Hlab]]]]].
  assert (Hnd : NoDup (dict_keys (probabilities r)))
    by (rewrite Hkeys; exact LABELS_NoDup).
  assert (Hkey : forall name p, In (name, p) (probabilities r) -> In name LABELS).
  { intros name p Hin. rewrite <- Hkeys. unfold dict_keys.
    apply in_map_iff. now exists (name, p). }
  split; [| split].
  - intros name p Hin Hnan Hlabels. rewrite Hlab in Hlabels.
    assert (Hsel : In name (predicted_labels (probabilities r) t)).
    { destruct (predicted_labels (probabilities r) t) as [| x xs]; [| exact Hlabels].
      simpl in Hlabels. destruct Hlabels as [<- | []].
      exfalso. exact (none_not_in_LABELS (Hkey _ _ Hin)). }
    apply predicted_labels_In in Hsel. destruct Hsel as [q [Hq Hqt]].
    pose proof (dict_get_In _ _ _ Hnd Hin) as G1.
    pose proof (dict_get_In _ _ _ Hnd Hq) as G2.
    rewrite G1 in G2. injection G2 as <-.
    apply float_ge_not_nan in Hqt. destruct Hqt as [Hp _]. congruence.
  - intros Hnan. rewrite Hlab.
    assert (Hnil : predicted_labels (probabilities r) t = []).
    { apply predicted_labels_nil. apply Forall_forall. intros item _.
      destruct (float_ge (snd item) t) eqn:E; [| reflexivity].
      apply float_ge_not_nan in E. destruct E as [_ E]. congruence. }
    now rewrite Hnil.
  - intros name p Hin Hnan. eexists. split; [apply (Hother p) |].
    cbn [labels].
    assert (Hsel : In name (predicted_labels (probabilities r) p)).
    { apply predicted_labels_In. exists p. split; [exact Hin |].
      now apply float_ge_refl. }
    destruct (predicted_labels (probabilities r) p); [contradiction | exact Hsel].
Qed.

End ClassifierExtras.

Lemma classify_comment_logit_count_witness :
  (exists r, classify_comment zero_logits_model coarse_sigmoid "text" float_half
             = Ok r
             /\ dict_values (probabilities r) = repeat float_half 6)
  /\ classify_comment (fun _ => Done [float_zero]) coarse_sigmoid "text" float_half
     = Raise (mkHTTPException 500
                "Classification error: 'float' object is not subscriptable")
  /\ classify_comment (fun _ => Done [float_zero; float_zero]) coarse_sigmoid
                      "text" float_half
     = Raise (mkHTTPException 500
                "Classification error: list index out of range").
Proof.
  split; [| split].
  - destruct (classify_comment_logit_count zero_logits_model coarse_sigmoid
                "text" float_half (repeat float_zero 6) eq_refl) as [H _].
    apply H. simpl. lia.
  - destruct (classify_comment_logit_count (fun _ => Done [float_zero])
                coarse_sigmoid "text" float_half [float_zero] eq_refl)
      as [_ [H _]].
    apply H. reflexivity.
  - destruct (classify_comment_logit_count
                (fun _ => Done [float_zero; float_zero])
                coarse_sigmoid "text" float_half [float_zero; float_zero] eq_refl)
      as [_ [_ H]].
    apply H; simpl; lia.
Defined.

Lemma classify_comment_threshold_only_labels_witness :
  exists r',
    classify_comment zero_logits_model coarse_sigmoid "text" float_one = Ok r'
    /\ probabilities r' = combine LABELS (repeat float_half 6).
Proof.
  destruct (classify_comment_threshold_only_labels zero_logits_model
              coarse_sigmoid "text" float_half float_one) as [_ H].
  apply (H {| labels := LABELS;
              probabilities := combine LABELS (repeat float_half 6) |}).
  reflexivity.
Defined.

Lemma classify_comment_labels_in_order_witness :
  classify_comment
    mixed_logits_model
    coarse_sigmoid "text" float_half
  = Ok {| labels := ["severe_toxic"; "threat"; "insult"];
          probabilities :=
            [("toxic", float_zero); ("severe_toxic", float_half);
             ("obscene", float_nan); ("threat", float_one);
             ("insult", float_half); ("identity_hate", float_zero)] |}
  /\ NoDup ["severe_toxic"; "threat"; "insult"].
Proof.
  split; [reflexivity |].
  apply (classify_comment_labels_in_order
           mixed_logits_model
           coarse_sigmoid "text" float_half
           {| labels := ["severe_toxic"; "threat"; "insult"];
              probabilities :=
                [("toxic", float_zero); ("severe_toxic", float_half);
                 ("obscene", float_nan); ("threat", float_one);
                 ("insult", float_half); ("identity_hate", float_zero)] |}
           eq_refl).
Defined.

Lemma classify_comment_threshold_monotone_witness :
  float_ge float_one float_half = true
  /\ In "threat"
        (labels {| labels := ["severe_toxic"; "threat"; "insult"];
                   probabilities :=
                     [("toxic", float_zero); ("severe_toxic", float_half);
                      ("obscene", float_nan); ("threat", float_one);
                      ("insult", float_half); ("identity_hate", float_zero)] |}).
Proof.
  split; [reflexivity |].
  apply (classify_comment_threshold_monotone
           mixed_logits_model
           coarse_sigmoid "text" float_half float_one
           {| labels := ["severe_toxic"; "threat"; "insult"];
              probabilities :=
                [("toxic", float_zero); ("severe_toxic", float_half);
                 ("obscene", float_nan); ("threat", float_one);
                 ("insult", float_half); ("identity_hate", float_zero)] |}
           {| labels := ["threat"];
              probabilities :=
                [("toxic", float_zero); ("severe_toxic", float_half);
                 ("obscene", float_nan); ("threat", float_one);
                 ("insult", float_half); ("identity_hate", float_zero)] |}
           eq_refl eq_refl eq_refl).
  - simpl. tauto.
  - discriminate.
Defined.

Lemma classify_comment_nan_and_boundary_witness :
  ~ In "obscene" ["severe_toxic"; "threat"; "insult"]
  /\ exists r',
       classify_comment
         mixed_logits_model
         coarse_sigmoid "text" float_one = Ok r'
       /\ In "threat" (labels r').
Proof.
  destruct (classify_comment_nan_and_boundary
              mixed_logits_model
              coarse_sigmoid "text" float_half
              {| labels := ["severe_toxic"; "threat"; "insult"];
                 probabilities :=
                   [("toxic", float_zero); ("severe_toxic", float_half);
                    ("obscene", float_nan); ("threat", float_one);
                    ("insult", float_half); ("identity_hate", float_zero)] |}
              eq_refl) as [Hnan [_ Hbound]].
  split.
  - apply (Hnan "obscene" float_nan); [simpl; tauto | reflexivity].
  - apply (Hbound "threat" float_one); [simpl; tauto | reflexivity].
Defined.

(* ------------------------------------------------------------------ *)
(** ** More on the feedback store *)
(* ------------------------------------------------------------------ *)


Lemma max_rowid_le (rows : list FeedbackRow) (n : Z) :
  0 <= n -> Forall (fun r => id r <= n) rows -> max_rowid rows <= n.
Proof.
  intros Hn H. induction H as [| r rows Hr _ IH]; simpl; lia.
Qed.


(** The database whose rows carry the ids 1, 2, ..., n, the counter being n. *)
Lemma consecutive_next_rowid (db : Database) :
  map id (feedback db) =
    map Z.of_nat (seq 1 (List.length (feedback db))) ->
  sqlite_sequence db = Z.of_nat (List.length (feedback db)) ->
  next_rowid db = Z.of_nat (List.length (feedback db)) + 1.
Proof.
  intros Hids Hseq. unfold next_rowid. rewrite Hseq.
  assert (Hle : max_rowid (feedback db) <= Z.of_nat (List.length (feedback db))).
  { apply max_rowid_le; [lia |].
    apply Forall_forall. intros r Hr.
    assert (Hin : In (id r) (map id (feedback db))) by now apply in_map.
    rewrite Hids in Hin. apply in_map_iff in Hin.
    destruct Hin as [k [<- Hk]]. apply in_seq in Hk. lia. }
  lia.
Qed.





(** X12.  The ends of a listing, limit and offset fitting the store's
    integers: a limit of zero and an offset at or past the number of rows
    both give the empty list, not an error; a limit that is not negative and
    reaches the end gives all the rows after the offset; and the call
    without arguments (limit 100, offset 0) gives the first hundred rows,
    which is the whole table only while it has at most a hundred. *)
Theorem view_feedback_ends (limit offset : Z) (db : Database) :
  INT64_MIN <= limit <= INT64_MAX -> 0 <= offset <= INT64_MAX ->
  (limit = 0 -> view_feedback None limit offset db = (Ok [], db))
  /\ (Z.of_nat (List.length (feedback db)) <= offset ->
      view_feedback None limit offset db = (Ok [], db))
  /\ (Z.of_nat (List.length (feedback db)) <= offset + limit -> 0 <= limit ->
      view_feedback None limit offset db =
      (Ok (skipn (Z.to_nat offset) (feedback db)), db))
  /\ view_feedback None default_limit default_offset db =
     (Ok (firstn 100 (feedback db)), db)
  /\ ((100 < List.length (feedback db))%nat ->
      fst (view_feedback None default_limit default_offset db)
      <> Ok (feedback db)).
Proof.
  intros Hl Ho.
  rewrite (view_feedback_in_range limit offset db Hl) by (unfold INT64_MIN; lia).
  assert (Hd : view_feedback None default_limit default_offset db =
               (Ok (firstn 100 (feedback db)), db)).
  { rewrite view_feedback_in_range
      by (unfold default_limit, default_offset, INT64_MIN, INT64_MAX; lia).
    reflexivity. }
  rewrite Hd. unfold limit_offset.
  destruct (Z.ltb_spec offset 0); [lia |].
  split; [| split; [| split; [| split]]].
  - intros ->. reflexivity.
  - intros Hoff. rewrite skipn_all2 by lia.
    destruct (limit <? 0); [reflexivity | now rewrite firstn_nil].
  - intros Hend Hnn. destruct (Z.ltb_spec limit 0); [lia |].
    rewrite firstn_all2; [reflexivity |]. rewrite length_skipn. lia.
  - reflexivity.
  - intros Hbig Heq.
    change (Ok (firstn 100 (feedback db)) = Ok (feedback db)) in Heq.
    assert (E : firstn 100 (feedback db) = feedback db) by congruence.
    apply (f_equal (@List.length FeedbackRow)) in E.
    rewrite length_firstn in E. lia.
Qed.

Lemma view_feedback_ends_witness :
  let fb := mkFeedbackRequest "text" ["toxic"] in
  let db2 := submit_all [("t1", fb); ("t2", fb)] empty_db in
  view_feedback None 0 1 db2 = (Ok [], db2)
  /\ view_feedback None (-1) 2 db2 = (Ok [], db2)
  /\ view_feedback None 7 1 db2 = (Ok (skipn 1 (feedback db2)), db2).
Proof.
  cbv zeta.
  assert (R : forall v, -8 <= v <= 8 -> INT64_MIN <= v <= INT64_MAX)
    by (unfold INT64_MIN, INT64_MAX; lia).
  assert (P : forall v, 0 <= v <= 8 -> 0 <= v <= INT64_MAX)
    by (unfold INT64_MAX; lia).
  assert (B0 : -8 <= 0 <= 8) by lia. assert (B1 : 0 <= 1 <= 8) by lia.
  assert (Bm : -8 <= -1 <= 8) by lia. assert (B2 : 0 <= 2 <= 8) by lia.
  assert (B7 : -8 <= 7 <= 8) by lia.
  split; [| split].
  - destruct (view_feedback_ends 0 1
                (submit_all
                   [("t1", mkFeedbackRequest "text" ["toxic"]);
                    ("t2", mkFeedbackRequest "text" ["toxic"])] empty_db)
                (R _ B0) (P _ B1)) as [H _].
    apply H. reflexivity.
  - destruct (view_feedback_ends (-1) 2
                (submit_all
                   [("t1", mkFeedbackRequest "text" ["toxic"]);
                    ("t2", mkFeedbackRequest "text" ["toxic"])] empty_db)
                (R _ Bm) (P _ B2)) as [_ [H _]].
    apply H. simpl. lia.
  - destruct (view_feedback_ends 7 1
                (submit_all
                   [("t1", mkFeedbackRequest "text" ["toxic"]);
                    ("t2", mkFeedbackRequest "text" ["toxic"])] empty_db)
                (R _ B7) (P _ B1)) as [_ [_ [H _]]].
    apply H; simpl; lia.
Defined.

(* ------------------------------------------------------------------ *)
(** ** More on the service as a whole *)
(* ------------------------------------------------------------------ *)

Section ServiceExtras.

Variable run_model : string -> attempt (list float).
Variable sigmoid : float -> float.

#[local] Abbreviation classify := (classify_comment run_model sigmoid).
#[local] Abbreviation serve := (handle run_model sigmoid).
#[local] Abbreviation run_from := (run run_model sigmoid).

(** A request either answers with the message of a stored submission and
    has appended the submitted row, or answers otherwise and has left the
    database as it was. *)
Lemma handle_stored_or_unchanged (env : environment) (req : request)
    (db : Database) :
  (is_stored (fst (serve env req db)) = true
   /\ exists fb,
       req = PostSubmitFeedback fb
       /\ snd (serve env req db) =
          {| feedback := (feedback db ++ [submitted_row (clock env) fb db])%list;
             sqlite_sequence := next_rowid db |})
  \/ (is_stored (fst (serve env req db)) = false
      /\ snd (serve env req db) = db).
Proof.
  destruct req as [| r | fb | | limit offset]; unfold handle.
  - right. split; reflexivity.
  - right. unfold classify_text.
    destruct (classify_comment _ _ _ _); split; reflexivity.
  - destruct (filter is_invalid_label (expected_labels fb)) as [| bad rest] eqn:E.
    + destruct (io_failure env) as [cause |].
      * right. rewrite (submit_feedback_io_failure cause _ fb db E).
        split; reflexivity.
      * destruct (Z_le_gt_dec (next_rowid db) INT64_MAX) as [Hfit | Hfull].
        -- left. rewrite (submit_feedback_stored _ fb db E Hfit).
           split; [reflexivity |]. exists fb. split; reflexivity.
        -- right. rewrite (submit_feedback_full _ fb db E) by lia.
           split; reflexivity.
    + right. rewrite submit_feedback_invalid by (rewrite E; discriminate).
      split; reflexivity.
  - right. destruct (io_failure env); split; reflexivity.
  - right. pose proof (view_feedback_frame (io_failure env) limit offset db) as Hf.
    destruct (view_feedback (io_failure env) limit offset db) as [[rows | e] db'];
      simpl in *; split; auto.
Qed.


(** Rows with the ids 1, ..., n and the counter at n. *)
Lemma handle_consecutive (env : environment) (req : request) (db : Database) :
  map id (feedback db) = map Z.of_nat (seq 1 (List.length (feedback db))) ->
  sqlite_sequence db = Z.of_nat (List.length (feedback db)) ->
  let db' := snd (serve env req db) in
  map id (feedback db') = map Z.of_nat (seq 1 (List.length (feedback db')))
  /\ sqlite_sequence db' = Z.of_nat (List.length (feedback db')).
Proof.
  intros Hids Hseq db'.
  destruct (handle_stored_or_unchanged env req db)
    as [[_ [fb [_ Hdb]]] | [_ Hdb]]; unfold db'; rewrite Hdb; [| now split].
  cbn [feedback sqlite_sequence].
  rewrite (consecutive_next_rowid db Hids Hseq).
  rewrite length_app, map_app, Hids. cbn [List.length map].
  rewrite Nat.add_1_r. rewrite seq_S, map_app. cbn [map id submitted_row].
  rewrite (consecutive_next_rowid db Hids Hseq).
  split; [| lia]. do 2 f_equal. lia.
Qed.

Lemma run_consecutive (trace : list (environment * request)) :
  forall db,
    map id (feedback db) = map Z.of_nat (seq 1 (List.length (feedback db))) ->
    sqlite_sequence db = Z.of_nat (List.length (feedback db)) ->
    map id (feedback (run_from trace db)) =
      map Z.of_nat (seq 1 (List.length (feedback (run_from trace db))))
    /\ sqlite_sequence (run_from trace db) =
       Z.of_nat (List.length (feedback (run_from trace db))).
Proof.
  induction trace as [| [env req] trace IH]; intros db Hids Hseq; simpl.
  - now split.
  - destruct (handle_consecutive env req db Hids Hseq) as [Hids' Hseq'].
    now apply IH.
Qed.

(** X8.  Started on a new database file, the service numbers the rows 1,
    2, 3, ... without gaps, whatever requests arrive: after any sequence of
    requests the ids are exactly 1 to the number of rows, so a failed or
    refused submission uses up no id, and the next id is the count plus
    one. *)
Theorem ids_are_consecutive (trace : list (environment * request)) :
  let db := run_from trace (init_db None) in
  map id (feedback db) = map Z.of_nat (seq 1 (List.length (feedback db)))
  /\ next_rowid db = Z.of_nat (List.length (feedback db)) + 1
  /\ get_feedback_stats None db = (Ok (next_rowid db - 1), db).
Proof.
  intros db.
  destruct (run_consecutive trace (init_db None) eq_refl eq_refl)
    as [Hids Hseq].
  fold db in Hids, Hseq.
  pose proof (consecutive_next_rowid db Hids Hseq) as Hnext.
  split; [exact Hids |]. split; [exact Hnext |].
  rewrite get_feedback_stats_count, Hnext. do 2 f_equal. lia.
Qed.

(** X9.  The label columns only ever hold 0 or 1: when that is so for the
    rows of a database, it is so after any sequence of requests. *)
Theorem label_columns_stay_boolean
    (trace : list (environment * request)) (db : Database) :
  Forall (fun r => forall name, In name LABELS ->
                     label_column name r = Some 0
                     \/ label_column name r = Some 1)
         (feedback db) ->
  Forall (fun r => forall name, In name LABELS ->
                     label_column name r = Some 0
                     \/ label_column name r = Some 1)
         (feedback (run_from trace db)).
Proof.
  revert db. induction trace as [| [env req] trace IH]; intros db H; simpl;
    [exact H |].
  apply IH.
  destruct (handle_stored_or_unchanged env req db)
    as [[_ [fb [_ Hdb]]] | [_ Hdb]]; rewrite Hdb; [| exact H].
  cbn [feedback]. apply Forall_app. split; [exact H |].
  constructor; [| constructor].
  intros name Hname. rewrite (submitted_row_flags _ fb db name Hname).
  destruct (str_in name (expected_labels fb)); auto.
Qed.

(** X10.  The table grows by exactly the submissions that were answered
    with the message of success: after any sequence of requests the count
    is the count before plus the number of such answers; requests that
    failed, were refused, or only read add nothing. *)
Theorem count_follows_stored_submissions
    (trace : list (environment * request)) (db : Database) :
  get_feedback_stats None (run_from trace db) =
  (Ok (Z.of_nat (List.length (feedback db))
       + Z.of_nat (List.length
                     (filter is_stored (responses run_model sigmoid trace db)))),
   run_from trace db).
Proof.
  rewrite get_feedback_stats_count. do 2 f_equal.
  revert db. induction trace as [| [env req] trace IH]; intros db;
    cbn [run responses].
  - cbn. lia.
  - rewrite IH. cbn [filter].
    destruct (handle_stored_or_unchanged env req db)
      as [[Hs [fb [_ Hdb]]] | [Hs Hdb]]; rewrite Hs, Hdb.
    + cbn [feedback List.length]. rewrite length_app. cbn [List.length]. lia.
    + lia.
Qed.

(** X13.  Rows already listed stay where they are: a page that lies within
    the rows of the database (offset and limit not negative, offset plus
    limit at most the count) is returned unchanged after any sequence of
    later requests. *)
Theorem view_feedback_page_is_stable
    (trace : list (environment * request)) (limit offset : Z) (db : Database) :
  0 <= limit -> 0 <= offset ->
  offset + limit <= Z.of_nat (List.length (feedback db)) ->
  offset + limit <= INT64_MAX ->
  exists page,
    view_feedback None limit offset db = (Ok page, db)
    /\ view_feedback None limit offset (run_from trace db)
       = (Ok page, run_from trace db)
    /\ Z.of_nat (List.length page) = limit.
Proof.
  intros Hl Ho Hin Hmax.
  rewrite !view_feedback_in_range by (unfold INT64_MIN; lia).
  rewrite !limit_offset_nonneg by lia.
  eexists. split; [reflexivity |].
  destruct (run_rows run_model sigmoid trace db) as [added ->].
  split.
  - rewrite skipn_app, firstn_app.
    rewrite length_skipn.
    replace (Z.to_nat limit - (List.length (feedback db) - Z.to_nat offset))%nat
      with 0%nat by lia.
    rewrite firstn_O, app_nil_r. reflexivity.
  - rewrite length_firstn, length_skipn. lia.
Qed.

End ServiceExtras.


Lemma ids_are_consecutive_witness :
  let fb := mkFeedbackRequest "text" ["toxic"] in
  let trace :=
    [ (mkEnvironment None "t1", PostSubmitFeedback fb);
      (mkEnvironment (Some "database is locked") "t2", PostSubmitFeedback fb);
      (mkEnvironment None "t3", PostSubmitFeedback (mkFeedbackRequest "text" ["bogus"]));
      (mkEnvironment None "t4", GetViewFeedback 10 0);
      (mkEnvironment None "t5", PostSubmitFeedback fb) ] in
  map id (feedback (run zero_logits_model coarse_sigmoid trace (init_db None)))
  = [1; 2].
Proof.
  cbv zeta.
  apply (ids_are_consecutive zero_logits_model coarse_sigmoid
           [ (mkEnvironment None "t1",
              PostSubmitFeedback (mkFeedbackRequest "text" ["toxic"]));
             (mkEnvironment (Some "database is locked") "t2",
              PostSubmitFeedback (mkFeedbackRequest "text" ["toxic"]));
             (mkEnvironment None "t3",
              PostSubmitFeedback (mkFeedbackRequest "text" ["bogus"]));
             (mkEnvironment None "t4", GetViewFeedback 10 0);
             (mkEnvironment None "t5",
              PostSubmitFeedback (mkFeedbackRequest "text" ["toxic"])) ]).
Defined.

Lemma label_columns_stay_boolean_witness :
  Forall (fun r => forall name, In name LABELS ->
                     label_column name r = Some 0
                     \/ label_column name r = Some 1)
         (feedback
            (run zero_logits_model coarse_sigmoid
               [ (mkEnvironment None "t1",
                  PostSubmitFeedback (mkFeedbackRequest "text" ["toxic"; "none"]));
                 (mkEnvironment None "t2", GetFeedbackStats) ]
               empty_db)).
Proof.
  apply (label_columns_stay_boolean zero_logits_model coarse_sigmoid).
  constructor.
Defined.

Lemma count_follows_stored_submissions_witness :
  let fb := mkFeedbackRequest "text" ["toxic"] in
  let trace :=
    [ (mkEnvironment None "t1", PostSubmitFeedback fb);
      (mkEnvironment (Some "database is locked") "t2", PostSubmitFeedback fb);
      (mkEnvironment None "t3", PostClassify (mkClassificationRequest "text"));
      (mkEnvironment None "t4", PostSubmitFeedback fb) ] in
  fst (get_feedback_stats None
         (run zero_logits_model coarse_sigmoid trace empty_db)) = Ok 2.
Proof.
  cbv zeta.
  rewrite (count_follows_stored_submissions zero_logits_model coarse_sigmoid).
  reflexivity.
Defined.

Lemma view_feedback_page_is_stable_witness :
  let fb := mkFeedbackRequest "text" ["toxic"] in
  let db3 := submit_all [("t1", fb); ("t2", fb); ("t3", fb)] empty_db in
  let trace := [ (mkEnvironment None "t4", PostSubmitFeedback fb) ] in
  exists page,
    view_feedback None 2 1 db3 = (Ok page, db3)
    /\ view_feedback None 2 1 (run zero_logits_model coarse_sigmoid trace db3)
       = (Ok page, run zero_logits_model coarse_sigmoid trace db3)
    /\ Z.of_nat (List.length page) = 2.
Proof.
  cbv zeta.
  apply (view_feedback_page_is_stable zero_logits_model coarse_sigmoid);
    try (unfold INT64_MAX; lia).
  simpl. lia.
Defined.
